(** * A shallow embedding of the AI chatbot (chatbot.py, geminiChatBot.py)

    The two scripts share everything but the provider adapter
    [send_to_openai]: the history store [_save_to_history], the two
    mode-specific operations and the console collector
    [get_multiline_input] are the same text in both files.  The shared
    parts are embedded once; the adapter is embedded once per file, in
    [Module OpenAI] and [Module Gemini]. *)

From Stdlib Require Import List NArith Bool Arith Lia String Ascii QArith.
From Stdlib Require Import DecimalString.
Import ListNotations.

Set Implicit Arguments.
Local Open Scope N_scope.
Local Open Scope list_scope.

(** ** Python strings

    A Python [str] is a sequence of Unicode code points; [len] counts code
    points and slicing cuts between them. *)

Definition str := list N.

(** [lit] reads an ASCII literal of this file as a [str]. *)
Definition lit (s : string) : str :=
  map N_of_ascii (list_ascii_of_string s).

Fixpoint str_eqb (a b : str) : bool :=
  match a, b with
  | [], [] => true
  | x :: a', y :: b' => (x =? y) && str_eqb a' b'
  | _, _ => false
  end.

(** [len(s)]. *)
Definition len (s : str) : nat := List.length s.

(** [s[:n]]. *)
Definition slice_to (n : nat) (s : str) : str := firstn n s.

(** [sep.join(parts)]. *)
Fixpoint join (sep : str) (parts : list str) : str :=
  match parts with
  | [] => []
  | [p] => p
  | p :: rest => p ++ sep ++ join sep rest
  end.

(** The code points [str.strip()] removes: those for which [str.isspace]
    holds. *)
Definition isspace (c : N) : bool :=
  ((9 <=? c) && (c <=? 13)) || ((28 <=? c) && (c <=? 32))
  || (c =? 133) || (c =? 160) || (c =? 5760)
  || ((8192 <=? c) && (c <=? 8202))
  || (c =? 8232) || (c =? 8233) || (c =? 8239) || (c =? 8287) || (c =? 12288).

Fixpoint lstrip (s : str) : str :=
  match s with
  | [] => []
  | c :: s' => if isspace c then lstrip s' else s
  end.

Definition rstrip (s : str) : str := rev (lstrip (rev s)).

(** [s.strip()]. *)
Definition strip (s : str) : str := rstrip (lstrip s).

Definition newline : str := [10].

(** ** The history entry

    The dict built by [_save_to_history]; [mode] is whatever
    [self.current_mode] holds, so it may be [None]. *)

Record entry := Entry {
  timestamp : str;
  mode : option str;
  user_input : str;
  ai_response : str
}.

(** [text[:200] + "..." if len(text) > 200 else text] *)
Definition truncate (text : str) : str :=
  if (200 <? len text)%nat then slice_to 200 text ++ lit "..." else text.

(** ** JSON values

    What [json.load] returns and [json.dump] accepts.  The history file is
    modelled at the level of values; the text layout ([indent=2],
    [ensure_ascii=False]) is not part of the model. *)

#[warnings="-register-all"]
Inductive json :=
| JNull
| JBool (b : bool)
| JInt (z : Z)
| JFloat (repr : str)
| JString (s : str)
| JArray (items : list json)
| JObject (members : list (str * json)).

(** The name Python gives the type of a loaded value. *)
Definition py_type_name (v : json) : str :=
  match v with
  | JNull => lit "NoneType"
  | JBool _ => lit "bool"
  | JInt _ => lit "int"
  | JFloat _ => lit "float"
  | JString _ => lit "str"
  | JArray _ => lit "list"
  | JObject _ => lit "dict"
  end.

Definition json_of_mode (m : option str) : json :=
  match m with
  | Some s => JString s
  | None => JNull
  end.

(** The entry dict as a JSON object, keys in insertion order. *)
Definition entry_json (e : entry) : json :=
  JObject [ (lit "timestamp", JString (timestamp e));
            (lit "mode", json_of_mode (mode e));
            (lit "user_input", JString (user_input e));
            (lit "ai_response", JString (ai_response e)) ].

(** ** Exceptions and outcomes

    [exn] stands for an instance of a subclass of [Exception]: its class
    name and what [str(e)] gives. *)

Record exn := Exn { exn_class : str; exn_str : str }.

Inductive outcome (A : Type) :=
| Ret (a : A)
| Raise (e : exn).
Arguments Ret {A} a.
Arguments Raise {A} e.

Definition AttributeError (type_name attr : str) : exn :=
  Exn (lit "AttributeError")
      (lit "'" ++ type_name ++ lit "' object has no attribute '" ++ attr ++ lit "'").

Definition IndexError : exn :=
  Exn (lit "IndexError") (lit "list index out of range").

Definition EOFError : exn :=
  Exn (lit "EOFError") (lit "EOF when reading a line").

Definition FileNotFoundError (path : str) : exn :=
  Exn (lit "FileNotFoundError")
      (lit "[Errno 2] No such file or directory: '" ++ path ++ lit "'").

(** ** Configuration *)

(** [MODEL] differs between the two files and is declared with each
    adapter; [TEMPERATURE] is the decimal literal 0.7. *)
Module Config.
Definition MAX_TOKENS : N := 500.
Definition TEMPERATURE : Q := 7 # 10.
Definition HISTORY_FILE : str := lit "chat_history.json".
Definition FAQ_SYSTEM_PROMPT : str :=
  lit "You are a helpful FAQ assistant. Answer questions " ++ newline ++
  lit "    clearly, concisely, and accurately. If you don't know the answer, say so.".
Definition SUMMARIZE_SYSTEM_PROMPT : str :=
  lit "You are a text summarization expert. Provide " ++ newline ++
  lit "    clear, concise summaries that capture the main points of the given text.".
End Config.

(** ** The chatbot object and the world around it *)

Record AIChatbot := Bot {
  conversation_history : list entry;
  current_mode : option str
}.

(** The state of [chat_history.json]. *)
Inductive file_state :=
| Missing                   (* os.path.exists gives False *)
| Unreadable (why : exn)    (* the file exists, open or json.load raises *)
| Holds (doc : json).       (* the file exists and parses to doc *)

(** What the attempt to rewrite the file meets: it goes through, or [open]
    or [json.dump] raises and leaves the file in some state. *)
Inductive write_result :=
| Written
| WriteFails (e : exn) (leaves : file_state).

Section Runtime.
Context {request response : Type}.

(** What is outside the object: the history file, what was printed, and
    the requests handed to the provider's client, oldest first. *)
Record world := World {
  history_file : file_state;
  stdout : list str;
  requests : list request
}.

(** What the environment decides during one operation: the clock reading
    (already formatted [%Y-%m-%d %H:%M:%S]), the provider's behaviour and
    the fate of the file write. *)
Record env := Env {
  now : str;
  provider : request -> outcome response;
  write : write_result
}.

Definition state : Type := AIChatbot * world.

(** Computations: read the environment, thread the state, may raise. *)
Definition M (A : Type) : Type := env -> state -> outcome A * state.

Definition ret {A} (a : A) : M A := fun _ st => (Ret a, st).

Definition bind {A B} (m : M A) (k : A -> M B) : M B :=
  fun E st =>
    match m E st with
    | (Ret a, st') => k a E st'
    | (Raise e, st') => (Raise e, st')
    end.

Definition raise {A} (e : exn) : M A := fun _ st => (Raise e, st).

(** [try: body / except Exception as e: handler e] *)
Definition try_except {A} (body : M A) (handler : exn -> M A) : M A :=
  fun E st =>
    match body E st with
    | (Ret a, st') => (Ret a, st')
    | (Raise e, st') => handler e E st'
    end.

(** [print(line)]: the text printed, without the newline [print] ends it
    with. *)
Definition print (line : str) : M unit :=
  fun _ '(self, w) =>
    (Ret tt, (self, World (history_file w) (stdout w ++ [line]) (requests w))).

(** [datetime.now().strftime("%Y-%m-%d %H:%M:%S")] *)
Definition strftime_now : M str := fun E st => (Ret (now E), st).

Definition get_current_mode : M (option str) :=
  fun _ '(self, w) => (Ret (current_mode self), (self, w)).

Definition set_current_mode (m : str) : M unit :=
  fun _ '(self, w) => (Ret tt, (Bot (conversation_history self) (Some m), w)).

(** [self.conversation_history.append(entry)] *)
Definition conversation_history_append (e : entry) : M unit :=
  fun _ '(self, w) =>
    (Ret tt, (Bot (conversation_history self ++ [e]) (current_mode self), w)).

(** [os.path.exists(Config.HISTORY_FILE)] *)
Definition path_exists : M bool :=
  fun _ '(self, w) =>
    (Ret match history_file w with Missing => false | _ => true end, (self, w)).

(** [with open(Config.HISTORY_FILE, 'r', ...) as f: json.load(f)] *)
Definition json_load : M json :=
  fun _ '(self, w) =>
    match history_file w with
    | Missing => (Raise (FileNotFoundError Config.HISTORY_FILE), (self, w))
    | Unreadable why => (Raise why, (self, w))
    | Holds doc => (Ret doc, (self, w))
    end.

(** [with open(Config.HISTORY_FILE, 'w', ...) as f: json.dump(v, f, ...)] *)
Definition json_dump (v : json) : M unit :=
  fun E '(self, w) =>
    match write E with
    | Written => (Ret tt, (self, World (Holds v) (stdout w) (requests w)))
    | WriteFails e leaves => (Raise e, (self, World leaves (stdout w) (requests w)))
    end.

(** [history.append(x)]: only a list has the method. *)
Definition list_append (history : json) (x : json) : M json :=
  match history with
  | JArray items => ret (JArray (items ++ [x]))
  | other => raise (AttributeError (py_type_name other) (lit "append"))
  end.

(** The call into the provider's client. *)
Definition call_provider (r : request) : M response :=
  fun E '(self, w) =>
    (provider E r, (self, World (history_file w) (stdout w) (requests w ++ [r]))).

End Runtime.

Arguments world : clear implicits.
Arguments env : clear implicits.
Arguments state : clear implicits.
Arguments M : clear implicits.

Declare Scope py_scope.
Delimit Scope py_scope with py.
Notation "x <- m ;; k" := (bind m (fun x => k))
  (at level 61, m at next level, right associativity) : py_scope.
Notation "m ;; k" := (bind m (fun _ => k))
  (at level 61, right associativity) : py_scope.

Local Open Scope py_scope.

(** ** The history store ([_save_to_history], the same in both files) *)

Section History.
Context {request response : Type}.
Local Abbreviation M := (M request response).

Definition _save_to_history (user_input ai_response : str) (mode : option str)
  : M unit :=
  (* Create a conversation entry *)
  ts <- strftime_now ;;
  let entry := Entry ts mode (truncate user_input) (truncate ai_response) in
  (* Add to in-memory history *)
  conversation_history_append entry ;;
  (* Load existing history from file *)
  history <- try_except
               (present <- path_exists ;;
                if present then json_load else ret (JArray []))
               (fun e =>
                  print (lit "Warning: Could not load history file: " ++ exn_str e) ;;
                  ret (JArray [])) ;;
  (* Append new entry *)
  history <- list_append history (entry_json entry) ;;
  (* Save back to file *)
  try_except
    (json_dump history)
    (fun e => print (lit "Warning: Could not save to history file: " ++ exn_str e)).

End History.

(** [if system_prompt:] holds for a string that is neither [None] nor empty. *)
Definition truthy (s : option str) : bool :=
  match s with
  | Some (_ :: _) => true
  | _ => false
  end.

(** The three symbols the scripts print: U+274C, U+1F916, U+1F4DD. *)
Definition cross_mark : str := [10060].
Definition robot_face : str := [129302].
Definition memo : str := [128221].

(** ** chatbot.py: the OpenAI adapter and the two operations *)

Module OpenAI.

Definition MODEL : str := lit "gpt-3.5-turbo".

Record message := Message { role : str; content : str }.

(** The keyword arguments of [client.chat.completions.create]. *)
Record request := Request {
  model : str;
  messages : list message;
  max_tokens : N;
  temperature : Q
}.

(** What the adapter reads of the reply: [choices[i].message.content],
    which the SDK types as an optional string. *)
Record response := Response { choices : list (option str) }.

Local Abbreviation M := (M request response).

(** [response.choices[0]] *)
Definition first_choice (r : response) : M (option str) :=
  match choices r with
  | c :: _ => ret c
  | [] => raise IndexError
  end.

(** [content.strip()] on an optional string. *)
Definition strip_method (content : option str) : M str :=
  match content with
  | Some s => ret (strip s)
  | None => raise (AttributeError (lit "NoneType") (lit "strip"))
  end.

Definition send_to_openai (user_message : str) (system_prompt : option str)
  : M (option str) :=
  try_except
    ((* Prepare messages for API call *)
     let messages := [] in
     (* Add system prompt if provided *)
     let messages :=
       match system_prompt with
       | Some p => if truthy system_prompt
                   then messages ++ [Message (lit "system") p]
                   else messages
       | None => messages
       end in
     (* Add user message *)
     let messages := messages ++ [Message (lit "user") user_message] in
     (* Make API call to OpenAI *)
     response <- call_provider
                   (Request MODEL messages Config.MAX_TOKENS Config.TEMPERATURE) ;;
     (* Extract and return the response text *)
     content <- first_choice response ;;
     ai_response <- strip_method content ;;
     (* Save to conversation history *)
     mode <- get_current_mode ;;
     _save_to_history user_message ai_response mode ;;
     ret (Some ai_response))
    (fun e =>
       (* Handle API errors gracefully *)
       let error_message := lit "Error communicating with OpenAI API: " ++ exn_str e in
       print (newline ++ cross_mark ++ lit " " ++ error_message) ;;
       ret None).

Definition answer_faq (question : str) : M (option str) :=
  set_current_mode (lit "FAQ") ;;
  print (newline ++ robot_face ++ lit " Processing your question...") ;;
  (* Send to OpenAI with FAQ system prompt *)
  response <- send_to_openai question (Some Config.FAQ_SYSTEM_PROMPT) ;;
  ret response.

Definition summarize_text (text : str) : M (option str) :=
  set_current_mode (lit "SUMMARIZE") ;;
  print (newline ++ memo ++ lit " Generating summary...") ;;
  (* Create a summarization prompt *)
  let prompt :=
    lit "Please provide a clear and concise summary of the following text:"
    ++ newline ++ newline ++ text in
  (* Send to OpenAI with summarization system prompt *)
  response <- send_to_openai prompt (Some Config.SUMMARIZE_SYSTEM_PROMPT) ;;
  ret response.

(** [AIChatbot()] once the API key is set: an empty session, no mode. *)
Definition init : AIChatbot := Bot [] None.

End OpenAI.

(** ** geminiChatBot.py: the Gemini adapter and the two operations *)

Module Gemini.

Definition MODEL : str := lit "gemini-2.5-flash".

(** [types.GenerateContentConfig(temperature=..., max_output_tokens=...)] *)
Record config := GenerateContentConfig {
  temperature : Q;
  max_output_tokens : N
}.

(** The keyword arguments of [client.models.generate_content]. *)
Record request := Request {
  model : str;
  contents : str;
  request_config : config
}.

(** What the adapter reads of the reply: the [text] attribute, [None]
    when absent or unset, and [str(response)]. *)
Record response := Response { text : option str; repr : str }.

Local Abbreviation M := (M request response).

Definition send_to_openai (user_message : str) (system_prompt : option str)
  : M (option str) :=
  try_except
    ((* Build a single prompt by prepending system prompt (if any) *)
     let prompt_parts := [] in
     let prompt_parts :=
       match system_prompt with
       | Some p => if truthy system_prompt
                   then prompt_parts ++ [strip p]
                   else prompt_parts
       | None => prompt_parts
       end in
     let prompt_parts := prompt_parts ++ [strip user_message] in
     let prompt := join (newline ++ newline) prompt_parts in
     let config := GenerateContentConfig Config.TEMPERATURE Config.MAX_TOKENS in
     response <- call_provider (Request MODEL prompt config) ;;
     (* response.text contains the generated text *)
     let ai_response := text response in
     let ai_response :=
       match ai_response with
       | None => repr response
       | Some t => t
       end in
     let ai_response := strip ai_response in
     (* Save to conversation history *)
     mode <- get_current_mode ;;
     _save_to_history user_message ai_response mode ;;
     ret (Some ai_response))
    (fun e =>
       (* Handle API errors gracefully *)
       let error_message := lit "Error communicating with Gemini API: " ++ exn_str e in
       print (newline ++ cross_mark ++ lit " " ++ error_message) ;;
       ret None).

Definition answer_faq (question : str) : M (option str) :=
  set_current_mode (lit "FAQ") ;;
  print (newline ++ robot_face ++ lit " Processing your question...") ;;
  (* Send to model with FAQ system prompt *)
  response <- send_to_openai question (Some Config.FAQ_SYSTEM_PROMPT) ;;
  ret response.

Definition summarize_text (text : str) : M (option str) :=
  set_current_mode (lit "SUMMARIZE") ;;
  print (newline ++ memo ++ lit " Generating summary...") ;;
  (* Create a summarization prompt *)
  let prompt :=
    lit "Please provide a clear and concise summary of the following text:"
    ++ newline ++ newline ++ text in
  (* Send to model with summarization system prompt *)
  response <- send_to_openai prompt (Some Config.SUMMARIZE_SYSTEM_PROMPT) ;;
  ret response.

Definition init : AIChatbot := Bot [] None.

End Gemini.

(** ** The console collector ([get_multiline_input], the same in both files) *)

(** The terminal: the lines [input()] will return, in order, and what was
    printed.  A line never holds the newline that ended it. *)
Record console := Console {
  stdin : list str;
  printed : list str
}.

Section Collector.
(** Unicode's uppercase mapping outside ASCII, which may give several
    code points for one. *)
Variable upper_ext : N -> str.

Definition upper_char (c : N) : str :=
  if (97 <=? c) && (c <=? 122) then [c - 32]
  else if c <? 128 then [c]
  else upper_ext c.

(** [s.upper()] *)
Definition upper (s : str) : str := flat_map upper_char s.

(** The [while True] loop, one iteration per line read.  [input()] raises
    [EOFError] when no line is left and nothing catches it. *)
Fixpoint read_lines (pending lines : list str) (empty_line_count : nat)
  : outcome (option str) * list str :=
  match pending with
  | [] => (Raise EOFError, [])
  | line :: pending' =>
      if str_eqb (upper line) (lit "CANCEL") then (Ret None, pending')
      else if str_eqb line (lit "") then
        let empty_line_count := S empty_line_count in
        if (2 <=? empty_line_count)%nat
        then (Ret (Some (strip (join newline lines))), pending')
        else read_lines pending' lines empty_line_count
      else
        let empty_line_count := O in
        read_lines pending' (lines ++ [line]) empty_line_count
  end.

Definition get_multiline_input (prompt : str) (c : console)
  : outcome (option str) * console :=
  let out := printed c ++ [newline ++ prompt] in
  let out := out ++ [lit "(Press Enter twice to finish, or type 'CANCEL' to go back)"
                     ++ newline] in
  let lines := [] in
  let empty_line_count := O in
  let '(r, rest) := read_lines (stdin c) lines empty_line_count in
  (r, Console rest out).

End Collector.

(** ** Sessions

    A session is a run of the two operations on one chatbot object, each
    under what the environment decides for it. *)

Inductive operation :=
| AnswerFaq (question : str)
| SummarizeText (text : str).

Section Session.
Context {request response : Type}.
Variable perform : operation -> M request response (option str).

Fixpoint run_session (script : list (operation * env request response))
                     (st : state request)
  : list (outcome (option str)) * state request :=
  match script with
  | [] => ([], st)
  | (op, E) :: script' =>
      let '(r, st') := perform op E st in
      let '(rs, st'') := run_session script' st' in
      (r :: rs, st'')
  end.
End Session.

Definition openai_perform (op : operation) : M OpenAI.request OpenAI.response (option str) :=
  match op with
  | AnswerFaq question => OpenAI.answer_faq question
  | SummarizeText text => OpenAI.summarize_text text
  end.

Definition gemini_perform (op : operation) : M Gemini.request Gemini.response (option str) :=
  match op with
  | AnswerFaq question => Gemini.answer_faq question
  | SummarizeText text => Gemini.summarize_text text
  end.

(** ** Vocabulary of the statements *)

(** Splitting a text at its newlines, as [text.split("\n")] does. *)
Fixpoint split_lines (t : str) : list str :=
  match t with
  | [] => [[]]
  | c :: t' =>
      if c =? 10 then [] :: split_lines t'
      else match split_lines t' with
           | l :: ls => (c :: l) :: ls
           | [] => [[c]]
           end
  end.

(** All spellings of an ASCII word that differ only in the case of letters. *)
Definition other_case (c : N) : list N :=
  if ((65 <=? c) && (c <=? 90)) then [c; c + 32]
  else if ((97 <=? c) && (c <=? 122)) then [c - 32; c]
  else [c].

Fixpoint case_variants (w : str) : list str :=
  match w with
  | [] => [[]]
  | c :: w' =>
      flat_map (fun tl => map (fun x => x :: tl) (other_case c)) (case_variants w')
  end.

(** The array the store starts from: a missing or unreadable file counts as
    the empty array. *)
Definition loaded (f : file_state) : json :=
  match f with
  | Holds doc => doc
  | _ => JArray []
  end.

(** The records of the on-disk array, none when the file holds no array. *)
Definition array_items (f : file_state) : list json :=
  match f with
  | Holds (JArray items) => items
  | _ => []
  end.

(** The warning printed when the file exists and cannot be read. *)
Definition load_warning (f : file_state) : list str :=
  match f with
  | Unreadable why => [lit "Warning: Could not load history file: " ++ exn_str why]
  | _ => []
  end.

Definition save_warning (e : exn) : str :=
  lit "Warning: Could not save to history file: " ++ exn_str e.

(** The line the adapter prints for an exception. *)
Definition diagnostic (api : str) (e : exn) : str :=
  newline ++ cross_mark ++ lit " "
  ++ (lit "Error communicating with " ++ api ++ lit " API: " ++ exn_str e).

(** The entry one exchange leaves. *)
Definition saved_entry (stamp : str) (m : option str) (sent received : str) : entry :=
  Entry stamp m (truncate sent) (truncate received).

Definition summarize_prompt (text : str) : str :=
  lit "Please provide a clear and concise summary of the following text:"
  ++ newline ++ newline ++ text.

Definition mode_of (op : operation) : str :=
  match op with
  | AnswerFaq _ => lit "FAQ"
  | SummarizeText _ => lit "SUMMARIZE"
  end.

Definition message_of (op : operation) : str :=
  match op with
  | AnswerFaq question => question
  | SummarizeText text => summarize_prompt text
  end.

Definition system_prompt_of (op : operation) : str :=
  match op with
  | AnswerFaq _ => Config.FAQ_SYSTEM_PROMPT
  | SummarizeText _ => Config.SUMMARIZE_SYSTEM_PROMPT
  end.

(** The line each operation prints before it calls the adapter. *)
Definition banner (op : operation) : str :=
  match op with
  | AnswerFaq _ => newline ++ robot_face ++ lit " Processing your question..."
  | SummarizeText _ => newline ++ memo ++ lit " Generating summary..."
  end.

(** The request each adapter hands to its client. *)
Definition openai_request (user_message : str) (system_prompt : option str)
  : OpenAI.request :=
  OpenAI.Request (lit "gpt-3.5-turbo")
    (match system_prompt with
     | Some (c :: p) => [OpenAI.Message (lit "system") (c :: p)]
     | _ => []
     end ++ [OpenAI.Message (lit "user") user_message])
    500 (7 # 10).

Definition gemini_request (user_message : str) (system_prompt : option str)
  : Gemini.request :=
  Gemini.Request (lit "gemini-2.5-flash")
    (match system_prompt with
     | Some (c :: p) => strip (c :: p) ++ newline ++ newline ++ strip user_message
     | _ => strip user_message
     end)
    (Gemini.GenerateContentConfig (7 # 10) 500).

(** The text each adapter makes of what its client gives back. *)
Definition openai_reply (o : outcome OpenAI.response) : outcome str :=
  match o with
  | Raise e => Raise e
  | Ret r =>
      match OpenAI.choices r with
      | [] => Raise IndexError
      | None :: _ => Raise (AttributeError (lit "NoneType") (lit "strip"))
      | Some content :: _ => Ret (strip content)
      end
  end.

Definition gemini_reply (o : outcome Gemini.response) : outcome str :=
  match o with
  | Raise e => Raise e
  | Ret r =>
      match Gemini.text r with
      | Some t => Ret (strip t)
      | None => Ret (strip (Gemini.repr r))
      end
  end.

Definition successful (r : outcome (option str)) : Prop :=
  exists answer, r = Ret (Some answer).

Definition bounded (e : entry) : Prop :=
  (len (user_input e) <= 203)%nat /\ (len (ai_response e) <= 203)%nat.

Definition no_newline (line : str) : Prop := ~ In 10 line.

(** The entries a session leaves, one per operation that returned a text. *)
Section Expected.
Context {request response : Type}.

Fixpoint expected_entries (script : list (operation * env request response))
                          (rs : list (outcome (option str))) : list entry :=
  match script, rs with
  | (op, E) :: script', Ret (Some text) :: rs' =>
      saved_entry (now E) (Some (mode_of op)) (message_of op) text
      :: expected_entries script' rs'
  | _ :: script', _ :: rs' => expected_entries script' rs'
  | _, _ => []
  end.

Definition writes_succeed (script : list (operation * env request response)) : Prop :=
  Forall (fun step => write (snd step) = Written) script.
End Expected.

Definition mode_set (e : entry) : Prop :=
  mode e = Some (lit "FAQ") \/ mode e = Some (lit "SUMMARIZE").

(** What either adapter does once its client has answered: save the
    exchange and return the text, or print the diagnostic and return [None]. *)
Section Settle.
Context {request response : Type}.

Definition settle (api user_message : str) (reply : outcome str)
  : M request response (option str) :=
  fun E '(self, w) =>
    match reply with
    | Raise e =>
        (Ret None,
         (self, World (history_file w) (stdout w ++ [diagnostic api e]) (requests w)))
    | Ret text =>
        match _save_to_history user_message text (current_mode self) E (self, w) with
        | (Ret _, st') => (Ret (Some text), st')
        | (Raise e, (self', w')) =>
            (Ret None,
             (self', World (history_file w') (stdout w' ++ [diagnostic api e])
                           (requests w')))
        end
    end.
End Settle.

(** ** Sample data for the worked instances *)

Definition sample_clock : str := lit "2025-10-01 12:00:00".

Definition connection_error : exn :=
  Exn (lit "APIConnectionError") (lit "Connection error.").

Definition openai_answers (content : str) : OpenAI.request -> outcome OpenAI.response :=
  fun _ => Ret (OpenAI.Response [Some content]).

Definition openai_down : OpenAI.request -> outcome OpenAI.response :=
  fun _ => Raise connection_error.

Definition gemini_answers (content : str) : Gemini.request -> outcome Gemini.response :=
  fun _ => Ret (Gemini.Response (Some content) (lit "GenerateContentResponse(...)")).

Definition gemini_down : Gemini.request -> outcome Gemini.response :=
  fun _ => Raise connection_error.

Definition openai_env_ok : env OpenAI.request OpenAI.response :=
  Env sample_clock (openai_answers (lit " Paris. ")) Written.

Definition openai_env_down : env OpenAI.request OpenAI.response :=
  Env sample_clock openai_down Written.

Definition gemini_env_ok : env Gemini.request Gemini.response :=
  Env sample_clock (gemini_answers (lit " Paris. ")) Written.

Definition gemini_env_down : env Gemini.request Gemini.response :=
  Env sample_clock gemini_down Written.

Definition openai_world (f : file_state) : world OpenAI.request := World f [] [].

Definition gemini_world (f : file_state) : world Gemini.request := World f [] [].

(** An operation that returns [None] and leaves the session list and the
    history file as they were. *)
Definition leaves_no_entry {request response : Type}
    (run : M request response (option str))
    (E : env request response) (self : AIChatbot) (w : world request) : Prop :=
  exists self' w',
    run E (self, w) = (Ret None, (self', w'))
    /\ conversation_history self' = conversation_history self
    /\ history_file w' = history_file w.

(** An adapter call that returns [None] after printing one more line. *)
Definition reports {request response : Type}
    (run : M request response (option str)) (line : str)
    (E : env request response) (self : AIChatbot) (w : world request) : Prop :=
  exists self' w',
    run E (self, w) = (Ret None, (self', w'))
    /\ stdout w' = stdout w ++ [line].

Definition returns {request response : Type}
    (run : M request response (option str))
    (E : env request response) (st : state request) : Prop :=
  exists o st', run E st = (Ret o, st').

(** The record as it is persisted: the four keys, none of them null. *)
Definition populated (e : entry) : Prop :=
  match entry_json e with
  | JObject members =>
      map fst members
      = [lit "timestamp"; lit "mode"; lit "user_input"; lit "ai_response"]
      /\ Forall (fun member => snd member <> JNull) members
  | _ => False
  end.

Definition bounded_record (v : json) : Prop :=
  exists e, v = entry_json e /\ bounded e.

(** The user message of the last request an OpenAI session sent. *)
Definition last_user_message (w : world OpenAI.request) : option str :=
  match rev (requests w) with
  | r :: _ =>
      match rev (OpenAI.messages r) with
      | m :: _ => Some (OpenAI.content m)
      | [] => None
      end
  | [] => None
  end.

Definition two_questions : list (operation * env OpenAI.request OpenAI.response) :=
  [ (AnswerFaq (lit "Capital of France?"), openai_env_ok);
    (SummarizeText (lit "Paris is the capital of France."),
     Env (lit "2025-10-01 12:00:05") (openai_answers (lit "Paris, capital.")) Written) ].

(** A line with content: what the collector keeps. *)
Definition nonempty (line : str) : bool := negb (str_eqb line (lit "")).

(** The two lines [get_multiline_input] prints before it reads. *)
Definition collector_banner (prompt : str) : list str :=
  [newline ++ prompt;
   lit "(Press Enter twice to finish, or type 'CANCEL' to go back)" ++ newline].

(** A text in which no line is blank. *)
Definition no_blank_line (text : str) : Prop :=
  Forall (fun line => line <> []) (split_lines text).

(** Lines as the proofs about [strip] need them: with content and without a
    newline inside. *)
Definition proper_lines (ls : list str) : Prop :=
  Forall (fun l => l <> [] /\ no_newline l) ls.

Definition starts_clean (s : str) : Prop :=
  match s with
  | c :: _ => isspace c = false
  | [] => True
  end.

(** The instruction [summarize_text] puts before the text: 65 characters
    and two newlines. *)
Definition summarize_instruction : str :=
  lit "Please provide a clear and concise summary of the following text:"
  ++ newline ++ newline.

(** A loaded document on which [history.append] works. *)
Definition is_array (doc : json) : bool :=
  match doc with
  | JArray _ => true
  | _ => false
  end.

Definition write_fails : env OpenAI.request OpenAI.response :=
  Env sample_clock (openai_answers (lit " Paris. "))
      (WriteFails (Exn (lit "PermissionError") (lit "[Errno 13] Permission denied"))
                  (Holds (JArray []))).

(** ** The rest of the console (the same in both files but for the
    guidance [main] prints) *)

(** [str(n)] for a count. *)
Definition str_of_nat (n : nat) : str :=
  lit (NilEmpty.string_of_uint (Nat.to_uint n)).

(** ["="*60] and ["-"*60]. *)
Definition double_rule : str := repeat 61 60%nat.
Definition single_rule : str := repeat 45 60%nat.

(** How an f-string shows [entry['mode']]. *)
Definition format_mode (m : option str) : str :=
  match m with
  | Some s => s
  | None => lit "None"
  end.

(** More symbols the scripts print: U+1F4ED, U+1F44B, U+1F4BE, U+2713. *)
Definition mailbox : str := [128237].
Definition waving_hand : str := [128075].
Definition floppy_disk : str := [128190].
Definition check_mark : str := [10003].

Section Display.
Context {request response : Type}.
Local Abbreviation M := (M request response).

Definition get_conversation_history : M (list entry) :=
  fun _ '(self, w) => (Ret (conversation_history self), (self, w)).

(** The [for i, entry in enumerate(..., 1)] loop of [view_history]. *)
Fixpoint view_entries (i : nat) (entries : list entry) : M unit :=
  match entries with
  | [] => ret tt
  | entry :: entries' =>
      print (newline ++ lit "[" ++ str_of_nat i ++ lit "] " ++ timestamp entry
             ++ lit " - Mode: " ++ format_mode (mode entry)) ;;
      print (lit "User: " ++ user_input entry) ;;
      print (lit "AI: " ++ ai_response entry) ;;
      print single_rule ;;
      view_entries (S i) entries'
  end.

Definition view_history : M unit :=
  history <- get_conversation_history ;;
  match history with
  | [] =>
      print (newline ++ mailbox ++ lit " No conversation history yet in this session.")
  | _ =>
      print (newline ++ double_rule) ;;
      print (lit "CONVERSATION HISTORY (Current Session)") ;;
      print double_rule ;;
      view_entries 1 history
  end.

Definition format_response (response : option str) : M unit :=
  match response with
  | Some text =>
      if truthy response then
        print (newline ++ double_rule) ;;
        print (robot_face ++ lit " AI RESPONSE:") ;;
        print double_rule ;;
        print (newline ++ text ++ newline) ;;
        print double_rule
      else
        print (newline ++ cross_mark ++ lit " Failed to get a response. Please try again.")
  | None =>
      print (newline ++ cross_mark ++ lit " Failed to get a response. Please try again.")
  end.

End Display.

(** Printing outside the object: the lines of successive [print] calls. *)
Definition say {request : Type} (lines : list str) (w : world request) : world request :=
  World (history_file w) (stdout w ++ lines) (requests w).

Definition display_welcome {request : Type} (w : world request) : world request :=
  say [ newline ++ double_rule;
        robot_face ++ lit " AI CHATBOT - FAQ Answering & Text Summarization";
        double_rule;
        newline ++ lit "Welcome! This chatbot can help you with:";
        lit "  1. Answering frequently asked questions";
        lit "  2. Summarizing long texts";
        newline ++ lit "All conversations are saved to 'chat_history.json'";
        double_rule ++ newline ] w.

Definition display_menu {request : Type} (w : world request) : world request :=
  say [ newline ++ single_rule;
        lit "MAIN MENU";
        single_rule;
        lit "1. Ask a FAQ Question";
        lit "2. Summarize Text";
        lit "3. View Conversation History";
        lit "4. Exit";
        single_rule ] w.

Definition choice_prompt : str := newline ++ lit "Enter your choice (1-4): ".

Definition invalid_choice : str :=
  cross_mark ++ lit " Invalid choice. Please enter 1, 2, 3, or 4.".

(** [choice in ['1', '2', '3', '4']] *)
Definition is_choice (choice : str) : bool :=
  existsb (str_eqb choice) [lit "1"; lit "2"; lit "3"; lit "4"].

(** The [while True] loop of [get_user_choice], one iteration per line
    read; [input(prompt)] writes the prompt, then reads, and raises
    [EOFError] when no line is left. *)
Fixpoint read_choice (pending out : list str) : outcome str * console :=
  match pending with
  | [] => (Raise EOFError, Console [] (out ++ [choice_prompt]))
  | line :: pending' =>
      let out := out ++ [choice_prompt] in
      let choice := strip line in
      if is_choice choice then (Ret choice, Console pending' out)
      else read_choice pending' (out ++ [invalid_choice])
  end.

Definition get_user_choice (c : console) : outcome str * console :=
  read_choice (stdin c) (printed c).

(** The four lines [view_history] prints for the entry numbered [i]. *)
Definition entry_block (i : nat) (e : entry) : list str :=
  [ newline ++ lit "[" ++ str_of_nat i ++ lit "] " ++ timestamp e
    ++ lit " - Mode: " ++ format_mode (mode e);
    lit "User: " ++ user_input e;
    lit "AI: " ++ ai_response e;
    single_rule ].

Fixpoint entry_blocks (i : nat) (entries : list entry) : list str :=
  match entries with
  | [] => []
  | e :: entries' => entry_block i e ++ entry_blocks (S i) entries'
  end.

Definition no_response_line : str :=
  newline ++ cross_mark ++ lit " Failed to get a response. Please try again.".

(** A line [get_user_choice] does not accept. *)
Definition rejected (line : str) : Prop := is_choice (strip line) = false.

(** What [get_user_choice] prints for the lines it does not accept. *)
Definition reprompts (bad : list str) : list str :=
  flat_map (fun _ => [choice_prompt; invalid_choice]) bad.

(** ** chatbot.py: [__init__] and [main] *)

(** How a run of the program ends: the function returns, an exception
    reaches the top, or [sys.exit] is called.  [Stalled] is the loop of the
    model out of fuel; [main] gives it more than it can use. *)
Inductive ending (A : Type) :=
| Done (a : A)
| Uncaught (e : exn)
| SystemExit (code : Z)
| Stalled.
Arguments Done {A} a.
Arguments Uncaught {A} e.
Arguments SystemExit {A} code.
Arguments Stalled {A}.

(** The program while it runs: the lines still to be typed, the chatbot
    object, the world, and how many operations have called the provider. *)
Record program := Program {
  keyboard : list str;
  chatbot : AIChatbot;
  outside : world OpenAI.request;
  served : nat
}.

(** What is left when the program has ended; no chatbot object when its
    construction failed. *)
Record run := Run {
  ended : ending unit;
  keyboard_left : list str;
  chatbot_left : option AIChatbot;
  world_left : world OpenAI.request
}.

Declare Scope app_scope.
Delimit Scope app_scope with app.

Module App.

Definition missing_key : exn :=
  Exn (lit "ValueError")
      (lit "OpenAI API key not found! Please set OPENAI_API_KEY "
       ++ lit "environment variable.").

(** [AIChatbot()], with [Config.API_KEY] as read from the environment. *)
Definition __init__ (api_key : option str) (w : world OpenAI.request)
  : outcome AIChatbot * world OpenAI.request :=
  (* Check if API key is set *)
  if negb (truthy api_key) then (Raise missing_key, w)
  else
    let self := Bot [] None in
    (Ret self, say [check_mark ++ lit " AI Chatbot initialized successfully!"] w).

Section Main.
Variable upper_ext : N -> str.

(** What the environment decides for the n-th operation that calls the
    provider, counting from 0. *)
Variable oracle : nat -> env OpenAI.request OpenAI.response.

Definition P (A : Type) : Type := program -> ending A * program.

Definition done {A} (a : A) : P A := fun s => (Done a, s).

Definition and_then {A B} (m : P A) (k : A -> P B) : P B :=
  fun s =>
    match m s with
    | (Done a, s') => k a s'
    | (Uncaught e, s') => (Uncaught e, s')
    | (SystemExit code, s') => (SystemExit code, s')
    | (Stalled, s') => (Stalled, s')
    end.

Notation "x <- m ;; k" := (and_then m (fun x => k))
  (at level 61, m at next level, right associativity) : app_scope.
Notation "m ;; k" := (and_then m (fun _ => k))
  (at level 61, right associativity) : app_scope.

Local Open Scope app_scope.

(** [print] calls in [main]. *)
Definition echo (lines : list str) : P unit :=
  fun s => (Done tt, Program (keyboard s) (chatbot s) (say lines (outside s)) (served s)).

(** [input(prompt)] *)
Definition input_ (prompt : str) : P str :=
  fun s =>
    let w := say [prompt] (outside s) in
    match keyboard s with
    | [] => (Uncaught EOFError, Program [] (chatbot s) w (served s))
    | line :: rest => (Done line, Program rest (chatbot s) w (served s))
    end.

(** A function of the console, on the program's keyboard and output. *)
Definition on_console {A} (f : console -> outcome A * console) : P A :=
  fun s =>
    let '(r, c) := f (Console (keyboard s) (stdout (outside s))) in
    (match r with Ret a => Done a | Raise e => Uncaught e end,
     Program (stdin c) (chatbot s)
         (World (history_file (outside s)) (printed c) (requests (outside s)))
         (served s)).

(** A method of the chatbot object that does not call the provider. *)
Definition method {A} (m : M OpenAI.request OpenAI.response A) : P A :=
  fun s =>
    let '(r, (self, w)) := m (oracle (served s)) (chatbot s, outside s) in
    (match r with Ret a => Done a | Raise e => Uncaught e end,
     Program (keyboard s) self w (served s)).

(** One of the two operations: the next decision of the environment. *)
Definition operate {A} (m : M OpenAI.request OpenAI.response A) : P A :=
  fun s =>
    let '(r, (self, w)) := m (oracle (served s)) (chatbot s, outside s) in
    (match r with Ret a => Done a | Raise e => Uncaught e end,
     Program (keyboard s) self w (S (served s))).

(** The [while True] loop of [main]; the value of an iteration's branch
    says whether it ended in [break]. *)
Fixpoint main_loop (fuel : nat) : P unit :=
  match fuel with
  | O => fun s => (Stalled, s)
  | S fuel' =>
      (* Display menu *)
      (fun s => (Done tt, Program (keyboard s) (chatbot s) (display_menu (outside s))
                             (served s))) ;;
      (* Get user choice *)
      choice <- on_console get_user_choice ;;
      (* Handle user choice *)
      leave <-
        (if str_eqb choice (lit "1") then
           (* FAQ Mode *)
           echo [newline ++ double_rule; lit "FAQ MODE - Ask Your Question"; double_rule] ;;
           line <- input_ (newline ++ lit "Your question: ") ;;
           let question := strip line in
           (if truthy (Some question) then
              response <- operate (OpenAI.answer_faq question) ;;
              method (format_response response)
            else
              echo [cross_mark ++ lit " Question cannot be empty!"]) ;;
           done false
         else if str_eqb choice (lit "2") then
           (* Summarize Mode *)
           echo [newline ++ double_rule;
                 lit "SUMMARIZATION MODE - Enter Text to Summarize"; double_rule] ;;
           text <- on_console
                     (get_multiline_input upper_ext
                        (lit "Paste or type the text you want to summarize:")) ;;
           (if truthy text then
              match text with
              | Some t =>
                  response <- operate (OpenAI.summarize_text t) ;;
                  method (format_response response)
              | None => done tt
              end
            else
              match text with
              | None => echo [cross_mark ++ lit " Cancelled."]
              | Some _ => echo [cross_mark ++ lit " Text cannot be empty!"]
              end) ;;
           done false
         else if str_eqb choice (lit "3") then
           (* View History *)
           method view_history ;;
           done false
         else if str_eqb choice (lit "4") then
           (* Exit *)
           echo [newline ++ double_rule;
                 waving_hand ++ lit " Thank you for using AI Chatbot!";
                 floppy_disk ++ lit " Your chat history has been saved to '"
                 ++ Config.HISTORY_FILE ++ lit "'";
                 double_rule ++ newline] ;;
           done true
         else done false) ;;
      if leave then done tt
      else
        (* Ask if user wants to continue *)
        (if existsb (str_eqb choice) [lit "1"; lit "2"; lit "3"] then
           input_ (newline ++ lit "Press Enter to continue...") ;; done tt
         else done tt) ;;
        main_loop fuel'
  end.

Definition main (api_key : option str) (typed : list str) (w : world OpenAI.request)
  : run :=
  (* Display welcome message *)
  let w := display_welcome w in
  (* Initialize chatbot *)
  match __init__ api_key w with
  | (Ret created, w) =>
      (* Main application loop *)
      let '(r, s) := main_loop (S (List.length typed)) (Program typed created w 0) in
      Run r (keyboard s) (Some (chatbot s)) (outside s)
  | (Raise e, w) =>
      if str_eqb (exn_class e) (lit "ValueError") then
        let w :=
          say [ newline ++ cross_mark ++ lit " " ++ exn_str e;
                newline ++ lit "To set your API key:";
                lit "  Windows: set OPENAI_API_KEY=your_api_key_here";
                lit "  Mac/Linux: export OPENAI_API_KEY=your_api_key_here";
                newline ++ lit "Or add it to a .env file in the project directory." ] w in
        Run (SystemExit 1) typed None w
      else Run (Uncaught e) typed None w
  end.

End Main.
End App.

(** What the user typed for an operation: the question, or the text. *)
Definition subject (op : operation) : str :=
  match op with
  | AnswerFaq question => question
  | SummarizeText text => text
  end.

(** An operation as [main] starts it: on a subject that is not empty and
    has no blank at either end. *)
Definition well_asked (op : operation) : Prop :=
  subject op <> [] /\ strip (subject op) = subject op.

Definition sent_by_main (r : OpenAI.request) : Prop :=
  exists op,
    well_asked op
    /\ r = openai_request (message_of op) (Some (system_prompt_of op)).

Definition saved_by_main (e : entry) : Prop :=
  exists op stamp answer,
    well_asked op
    /\ e = Entry stamp (Some (mode_of op)) (truncate (message_of op)) (truncate answer).

(** What [main] keeps true from the moment the chatbot object exists, for
    a history file and a list of requests found at the start. *)
Definition main_inv (f0 : file_state) (reqs0 : list OpenAI.request) (s : program)
  : Prop :=
  Forall saved_by_main (conversation_history (chatbot s))
  /\ exists added,
       requests (outside s) = reqs0 ++ added
       /\ Forall sent_by_main added
       /\ List.length added = served s
       /\ (added = [] -> history_file (outside s) = f0).

(** A step of the program that keeps [I], ends by returning or by the
    [EOFError] of an exhausted keyboard, and takes [pre] to [post]. *)
Definition triple {A : Type} (I pre : program -> Prop) (m : App.P A)
    (post : A -> program -> Prop) : Prop :=
  forall s,
    I s -> pre s ->
    I (snd (m s))
    /\ match fst (m s) with
       | Done a => post a (snd (m s))
       | Uncaught e => e = EOFError /\ keyboard (snd (m s)) = []
       | SystemExit _ => False
       | Stalled => False
       end.

(** At most [n] lines are left to read. *)
Definition at_most (n : nat) (s : program) : Prop :=
  (List.length (keyboard s) <= n)%nat.

(** The operations of a session that returned a text. *)
Fixpoint count_successful (rs : list (outcome (option str))) : nat :=
  match rs with
  | [] => O
  | Ret (Some _) :: rs' => S (count_successful rs')
  | _ :: rs' => count_successful rs'
  end.

(** A session in which the provider is down for the second of three
    operations. *)
Definition ok_down_ok : list (operation * env OpenAI.request OpenAI.response) :=
  [ (AnswerFaq (lit "Capital of France?"), openai_env_ok);
    (AnswerFaq (lit "Capital of Spain?"), openai_env_down);
    (SummarizeText (lit "Paris is the capital of France."),
     Env (lit "2025-10-01 12:00:05") (openai_answers (lit "Paris, capital.")) Written) ].

(** Text a UTF-8 stream can take: code points that are Unicode scalar
    values, so no surrogate.  [print] raises [UnicodeEncodeError] on any
    other text; the [print] of the model does not, and the statements
    about what is shown of texts that come from outside are made for
    encodable texts. *)
Definition is_scalar (c : N) : bool :=
  (c <? 55296) || ((57343 <? c) && (c <=? 1114111)).

Definition encodable (s : str) : bool := forallb is_scalar s.

Definition encodable_entry (e : entry) : bool :=
  encodable (timestamp e) && encodable (format_mode (mode e))
  && encodable (user_input e) && encodable (ai_response e).



(** What [view_history] prints for a session list. *)
Definition history_lines (history : list entry) : list str :=
  match history with
  | [] => [newline ++ mailbox ++ lit " No conversation history yet in this session."]
  | _ =>
      [newline ++ double_rule; lit "CONVERSATION HISTORY (Current Session)";
       double_rule] ++ entry_blocks 1 history
  end.

(** * Properties *)

(** ** Truncation *)

Example truncate_short : truncate (lit "hello") = lit "hello".
Proof. reflexivity. Qed.

Example truncate_201 :
  truncate (repeat 97 201) = repeat 97 200 ++ lit "...".
Proof. reflexivity. Qed.

Lemma truncate_long (text : str) :
  (200 < len text)%nat -> truncate text = slice_to 200 text ++ lit "...".
Proof.
  intros H. unfold truncate.
  destruct (Nat.ltb_spec 200 (len text)) as [_ | Hle]; [reflexivity | lia].
Qed.

Lemma truncate_fits (text : str) :
  (len text <= 200)%nat -> truncate text = text.
Proof.
  intros H. unfold truncate.
  destruct (Nat.ltb_spec 200 (len text)) as [Hlt | _]; [lia | reflexivity].
Qed.

Lemma truncate_bound (text : str) : (len (truncate text) <= 203)%nat.
Proof.
  unfold truncate, len, slice_to.
  destruct (Nat.ltb_spec 200 (List.length text)) as [Hlt | Hle].
  - rewrite length_app, length_firstn.
    change (List.length (lit "...")) with 3%nat. lia.
  - lia.
Qed.

(** ** The history store, step by step *)

Section HistoryFacts.
Context {request response : Type}.
Implicit Types (E : env request response) (w : world request) (self : AIChatbot).

(** What one call of [_save_to_history] does, by the state of the file and
    the fate of the write. *)
Lemma save_to_history_eq (sent received : str) (m : option str) E self w :
  _save_to_history sent received m E (self, w)
  = let e := saved_entry (now E) m sent received in
    let self' := Bot (conversation_history self ++ [e]) (current_mode self) in
    let out := stdout w ++ load_warning (history_file w) in
    match loaded (history_file w) with
    | JArray items =>
        match write E with
        | Written =>
            (Ret tt, (self', World (Holds (JArray (items ++ [entry_json e])))
                                   out (requests w)))
        | WriteFails x leaves =>
            (Ret tt, (self', World leaves (out ++ [save_warning x]) (requests w)))
        end
    | other =>
        (Raise (AttributeError (py_type_name other) (lit "append")),
         (self', World (history_file w) out (requests w)))
    end.
Proof.
  destruct w as [f out reqs], self as [hist cm].
  unfold _save_to_history, bind, try_except, strftime_now,
    conversation_history_append, path_exists, json_load, json_dump, print, ret.
  cbn [history_file stdout requests conversation_history current_mode].
  destruct f as [ | why | doc]; cbn [loaded load_warning].
  - cbn. destruct (write E); rewrite ?app_nil_r; reflexivity.
  - cbn. destruct (write E); reflexivity.
  - destruct doc; cbn; try (rewrite ?app_nil_r; reflexivity).
    destruct (write E); rewrite ?app_nil_r; reflexivity.
Qed.

End HistoryFacts.

(** ** The adapters, in terms of [settle] *)

Ltac case_save :=
  match goal with
  | |- context [_save_to_history ?a ?b ?c ?E ?st] =>
      destruct (_save_to_history a b c E st) as [[[] | ?] [? ?]]
  end.

Lemma openai_send_eq (user_message : str) (system_prompt : option str) E self w :
  OpenAI.send_to_openai user_message system_prompt E (self, w)
  = let req := openai_request user_message system_prompt in
    settle (lit "OpenAI") user_message (openai_reply (provider E req)) E
      (self, World (history_file w) (stdout w) (requests w ++ [req])).
Proof.
  destruct w as [f out reqs], self as [hist cm].
  unfold OpenAI.send_to_openai, settle, openai_request, bind, try_except,
    call_provider, get_current_mode, print, ret.
  cbn [history_file stdout requests conversation_history current_mode].
  assert (Hm : match system_prompt with
               | Some p => if truthy system_prompt
                           then [] ++ [OpenAI.Message (lit "system") p] else []
               | None => []
               end
               = match system_prompt with
                 | Some (c :: p) => [OpenAI.Message (lit "system") (c :: p)]
                 | _ => []
                 end).
  { destruct system_prompt as [[ | c p] | ]; reflexivity. }
  rewrite Hm. clear Hm.
  change OpenAI.MODEL with (lit "gpt-3.5-turbo").
  change Config.MAX_TOKENS with 500. change Config.TEMPERATURE with (7 # 10).
  destruct (provider E _) as [[choices] | e]; cbn [openai_reply OpenAI.choices].
  - unfold OpenAI.first_choice, OpenAI.strip_method, raise, ret.
    cbn [OpenAI.choices].
    destruct choices as [ | [content | ] rest]; try reflexivity.
    cbn [current_mode]. case_save; reflexivity.
  - reflexivity.
Qed.

Lemma gemini_send_eq (user_message : str) (system_prompt : option str) E self w :
  Gemini.send_to_openai user_message system_prompt E (self, w)
  = let req := gemini_request user_message system_prompt in
    settle (lit "Gemini") user_message (gemini_reply (provider E req)) E
      (self, World (history_file w) (stdout w) (requests w ++ [req])).
Proof.
  destruct w as [f out reqs], self as [hist cm].
  unfold Gemini.send_to_openai, settle, gemini_request, bind, try_except,
    call_provider, get_current_mode, print, ret.
  cbn [history_file stdout requests conversation_history current_mode].
  assert (Hp : join (newline ++ newline)
                 (match system_prompt with
                  | Some p => if truthy system_prompt then [] ++ [strip p] else []
                  | None => []
                  end ++ [strip user_message])
               = match system_prompt with
                 | Some (c :: p) =>
                     strip (c :: p) ++ newline ++ newline ++ strip user_message
                 | _ => strip user_message
                 end).
  { destruct system_prompt as [[ | c p] | ]; reflexivity. }
  rewrite Hp. clear Hp.
  change Gemini.MODEL with (lit "gemini-2.5-flash").
  change Config.MAX_TOKENS with 500. change Config.TEMPERATURE with (7 # 10).
  destruct (provider E _) as [[t rp] | e]; cbn [gemini_reply Gemini.text Gemini.repr].
  - destruct t as [t | ]; cbn [current_mode]; case_save; reflexivity.
  - reflexivity.
Qed.

Section SettleFacts.
Context {request response : Type}.
Implicit Types (E : env request response) (w : world request) (self : AIChatbot).

Lemma bind_ret_r {A} (m : M request response A) E (st : state request) :
  bind m (fun a => ret a) E st = m E st.
Proof. unfold bind, ret. destruct (m E st) as [[a | e] st']; reflexivity. Qed.

(** [settle], by what the client answered, the state of the file and the
    fate of the write. *)
Lemma settle_eq (api sent : str) (reply : outcome str) E self w :
  settle api sent reply E (self, w)
  = match reply with
    | Raise e =>
        (Ret None,
         (self, World (history_file w) (stdout w ++ [diagnostic api e]) (requests w)))
    | Ret text =>
        let e := saved_entry (now E) (current_mode self) sent text in
        let self' := Bot (conversation_history self ++ [e]) (current_mode self) in
        let out := stdout w ++ load_warning (history_file w) in
        match loaded (history_file w) with
        | JArray items =>
            match write E with
            | Written =>
                (Ret (Some text),
                 (self', World (Holds (JArray (items ++ [entry_json e])))
                               out (requests w)))
            | WriteFails x leaves =>
                (Ret (Some text),
                 (self', World leaves (out ++ [save_warning x]) (requests w)))
            end
        | other =>
            (Ret None,
             (self',
              World (history_file w)
                    (out ++ [diagnostic api
                               (AttributeError (py_type_name other) (lit "append"))])
                    (requests w)))
        end
    end.
Proof.
  unfold settle. destruct reply as [text | e]; [ | reflexivity].
  rewrite save_to_history_eq. cbv zeta.
  destruct (loaded (history_file w)); try reflexivity.
  destruct (write E); reflexivity.
Qed.

Lemma loaded_array (f : file_state) (items : list json) :
  loaded f = JArray items -> array_items f = items.
Proof.
  destruct f as [ | why | doc]; cbn; intros H.
  - now inversion H.
  - now inversion H.
  - now subst doc.
Qed.

(** One call of [settle], as the cases the statements below need. *)
Lemma settle_cases (api sent : str) (reply : outcome str) E self w :
  exists o self' w',
    settle api sent reply E (self, w) = (Ret o, (self', w'))
    /\ current_mode self' = current_mode self
    /\ requests w' = requests w
    /\ match reply with
       | Raise e =>
           o = None
           /\ conversation_history self' = conversation_history self
           /\ history_file w' = history_file w
           /\ stdout w' = stdout w ++ [diagnostic api e]
       | Ret text =>
           let e := saved_entry (now E) (current_mode self) sent text in
           conversation_history self' = conversation_history self ++ [e]
           /\ ((o = Some text
                /\ history_file w'
                   = match write E with
                     | Written =>
                         Holds (JArray (array_items (history_file w) ++ [entry_json e]))
                     | WriteFails _ leaves => leaves
                     end)
               \/ (o = None
                   /\ history_file w' = history_file w
                   /\ forall items, loaded (history_file w) <> JArray items))
       end.
Proof.
  rewrite settle_eq. destruct reply as [text | e].
  - cbv zeta.
    destruct (loaded (history_file w)) as [ | b | z | r | t | items | members ] eqn:Hl.
    6:{ apply loaded_array in Hl. rewrite Hl.
        destruct (write E) as [ | x leaves];
          do 3 eexists; (split; [reflexivity | ]);
          cbn; repeat split; left; split; reflexivity. }
    all: do 3 eexists; (split; [reflexivity | ]);
      cbn; repeat split; right; repeat split; intros items; discriminate.
  - do 3 eexists. split; [reflexivity | ]. cbn. repeat split.
Qed.

End SettleFacts.

(** ** The two operations, in terms of [settle] *)

Lemma openai_perform_eq (op : operation) E self w :
  openai_perform op E (self, w)
  = let req := openai_request (message_of op) (Some (system_prompt_of op)) in
    settle (lit "OpenAI") (message_of op) (openai_reply (provider E req)) E
      (Bot (conversation_history self) (Some (mode_of op)),
       World (history_file w) (stdout w ++ [banner op]) (requests w ++ [req])).
Proof.
  destruct w as [f out reqs], self as [hist cm].
  destruct op as [question | text]; cbn [openai_perform];
    unfold OpenAI.answer_faq, OpenAI.summarize_text;
    unfold bind at 1; unfold set_current_mode at 1;
    unfold bind at 1; unfold print at 1;
    rewrite bind_ret_r, openai_send_eq; reflexivity.
Qed.

Lemma gemini_perform_eq (op : operation) E self w :
  gemini_perform op E (self, w)
  = let req := gemini_request (message_of op) (Some (system_prompt_of op)) in
    settle (lit "Gemini") (message_of op) (gemini_reply (provider E req)) E
      (Bot (conversation_history self) (Some (mode_of op)),
       World (history_file w) (stdout w ++ [banner op]) (requests w ++ [req])).
Proof.
  destruct w as [f out reqs], self as [hist cm].
  destruct op as [question | text]; cbn [gemini_perform];
    unfold Gemini.answer_faq, Gemini.summarize_text;
    unfold bind at 1; unfold set_current_mode at 1;
    unfold bind at 1; unfold print at 1;
    rewrite bind_ret_r, gemini_send_eq; reflexivity.
Qed.

(** ** Sessions, for either script *)

Section SessionFacts.
Context {request response : Type}.
Variable api : str.
Variable perform : operation -> M request response (option str).
Variable build : operation -> request.
Variable extract : outcome response -> outcome str.
Hypothesis perform_eq : forall op E self w,
  perform op E (self, w)
  = settle api (message_of op) (extract (provider E (build op))) E
      (Bot (conversation_history self) (Some (mode_of op)),
       World (history_file w) (stdout w ++ [banner op]) (requests w ++ [build op])).

Implicit Types (E : env request response) (w : world request) (self : AIChatbot).

Lemma perform_cases (op : operation) E self w :
  exists o self' w',
    perform op E (self, w) = (Ret o, (self', w'))
    /\ current_mode self' = Some (mode_of op)
    /\ requests w' = requests w ++ [build op]
    /\ match extract (provider E (build op)) with
       | Raise e =>
           o = None
           /\ conversation_history self' = conversation_history self
           /\ history_file w' = history_file w
           /\ stdout w' = stdout w ++ [banner op; diagnostic api e]
       | Ret text =>
           let e := saved_entry (now E) (Some (mode_of op)) (message_of op) text in
           conversation_history self' = conversation_history self ++ [e]
           /\ ((o = Some text
                /\ history_file w'
                   = match write E with
                     | Written =>
                         Holds (JArray (array_items (history_file w) ++ [entry_json e]))
                     | WriteFails _ leaves => leaves
                     end)
               \/ (o = None
                   /\ history_file w' = history_file w
                   /\ forall items, loaded (history_file w) <> JArray items))
       end.
Proof.
  rewrite perform_eq.
  destruct (settle_cases api (message_of op) (extract (provider E (build op))) E
              (Bot (conversation_history self) (Some (mode_of op)))
              (World (history_file w) (stdout w ++ [banner op])
                     (requests w ++ [build op])))
    as (o & self' & w' & Heq & Hmode & Hreq & Hcase).
  exists o, self', w'. repeat split; try assumption.
  destruct (extract (provider E (build op))) as [text | e]; cbn in Hcase |- *.
  - exact Hcase.
  - destruct Hcase as (Ho & Hh & Hf & Hout).
    repeat split; try assumption.
    rewrite Hout, <- app_assoc. reflexivity.
Qed.

(** What every entry of a session shares is kept by a session. *)
Lemma session_keeps (P : entry -> Prop) :
  (forall stamp op text,
      P (saved_entry stamp (Some (mode_of op)) (message_of op) text)) ->
  forall script self w rs self' w',
    Forall P (conversation_history self) ->
    run_session perform script (self, w) = (rs, (self', w')) ->
    Forall P (conversation_history self').
Proof.
  intros HP. induction script as [ | [op E] script IH]; intros self w rs self' w' Hinit Hrun.
  - cbn in Hrun. inversion Hrun; subst. exact Hinit.
  - cbn in Hrun.
    destruct (perform_cases op E self w) as (o & self1 & w1 & Heq & _ & _ & Hcase).
    rewrite Heq in Hrun.
    destruct (run_session perform script (self1, w1)) as [rs1 [self2 w2]] eqn:Hrest.
    inversion Hrun; subst. clear Hrun.
    apply (IH self1 w1 rs1 self' w'); [ | exact Hrest].
    destruct (extract (provider E (build op))) as [text | e].
    + destruct Hcase as [Hh _]. rewrite Hh.
      apply Forall_app. split; [exact Hinit | ]. constructor; [apply HP | constructor].
    + destruct Hcase as (_ & Hh & _). rewrite Hh. exact Hinit.
Qed.

(** No operation of a session raises. *)
Lemma session_returns script :
  forall self w rs self' w',
    run_session perform script (self, w) = (rs, (self', w')) ->
    Forall (fun r => exists o, r = Ret o) rs.
Proof.
  induction script as [ | [op E] script IH]; intros self w rs self' w' Hrun.
  - cbn in Hrun. inversion Hrun. constructor.
  - cbn in Hrun.
    destruct (perform_cases op E self w) as (o & self1 & w1 & Heq & _).
    rewrite Heq in Hrun.
    destruct (run_session perform script (self1, w1)) as [rs1 [self2 w2]] eqn:Hrest.
    inversion Hrun; subst. constructor; [now exists o | ].
    eapply IH. exact Hrest.
Qed.

(** A session whose operations all return a text. *)
Lemma session_successful script :
  forall self w rs self' w',
    run_session perform script (self, w) = (rs, (self', w')) ->
    Forall successful rs ->
    conversation_history self'
    = conversation_history self ++ expected_entries script rs
    /\ List.length (expected_entries script rs) = List.length script
    /\ (writes_succeed script ->
        array_items (history_file w')
        = array_items (history_file w)
          ++ map entry_json (expected_entries script rs)).
Proof.
  induction script as [ | [op E] script IH]; intros self w rs self' w' Hrun Hok.
  - cbn in Hrun. inversion Hrun; subst. cbn. rewrite !app_nil_r. auto.
  - cbn in Hrun.
    destruct (perform_cases op E self w) as (o & self1 & w1 & Heq & _ & _ & Hcase).
    rewrite Heq in Hrun.
    destruct (run_session perform script (self1, w1)) as [rs1 [self2 w2]] eqn:Hrest.
    inversion Hrun; subst. clear Hrun.
    inversion Hok as [ | r rs' [answer Hans] Hok1 ]; subst.
    injection Hans as ->.
    destruct (IH self1 w1 rs1 self' w' Hrest Hok1) as (Hh & Hlen & Hdisk).
    destruct (extract (provider E (build op))) as [text | e].
    + destruct Hcase as [Hh1 [[Ho Hf] | [Ho _]]]; [ | discriminate].
      injection Ho as ->.
      cbn [expected_entries]. repeat split.
      * rewrite Hh, Hh1, <- app_assoc. reflexivity.
      * cbn. now rewrite Hlen.
      * intros Hw. inversion Hw as [ | step steps Hw0 Hw1 ]; subst.
        cbn in Hw0. rewrite Hw0 in Hf.
        rewrite (Hdisk Hw1), Hf. cbn [array_items map].
        rewrite <- app_assoc. reflexivity.
    + destruct Hcase as (Ho & _). discriminate.
Qed.

(** What every record of the on-disk array shares is kept by a session whose
    writes go through. *)
Lemma session_keeps_on_disk (Q : json -> Prop) :
  (forall stamp op text,
      Q (entry_json (saved_entry stamp (Some (mode_of op)) (message_of op) text))) ->
  forall script self w rs self' w',
    writes_succeed script ->
    Forall Q (array_items (history_file w)) ->
    run_session perform script (self, w) = (rs, (self', w')) ->
    Forall Q (array_items (history_file w')).
Proof.
  intros HQ. induction script as [ | [op E] script IH];
    intros self w rs self' w' Hw Hinit Hrun.
  - cbn in Hrun. inversion Hrun; subst. exact Hinit.
  - cbn in Hrun.
    destruct (perform_cases op E self w) as (o & self1 & w1 & Heq & _ & _ & Hcase).
    rewrite Heq in Hrun.
    destruct (run_session perform script (self1, w1)) as [rs1 [self2 w2]] eqn:Hrest.
    inversion Hrun; subst. clear Hrun.
    inversion Hw as [ | step steps Hw0 Hw1 ]; subst. cbn in Hw0.
    apply (IH self1 w1 rs1 self' w' Hw1); [ | exact Hrest].
    destruct (extract (provider E (build op))) as [text | e].
    + destruct Hcase as [_ [[_ Hf] | [_ [Hf _]]]].
      * rewrite Hw0 in Hf. rewrite Hf. cbn [array_items].
        apply Forall_app. split; [exact Hinit | ]. constructor; [apply HQ | constructor].
      * rewrite Hf. exact Hinit.
    + destruct Hcase as (_ & _ & Hf & _). rewrite Hf. exact Hinit.
Qed.

Lemma session_length script :
  forall st rs st',
    run_session perform script st = (rs, st') -> List.length rs = List.length script.
Proof.
  induction script as [ | [op E] script IH]; intros st rs st' Hrun.
  - cbn in Hrun. now inversion Hrun.
  - cbn in Hrun. destruct (perform op E st) as [r st1].
    destruct (run_session perform script st1) as [rs1 st2] eqn:Hrest.
    inversion Hrun; subst. cbn. f_equal. eapply IH. exact Hrest.
Qed.

End SessionFacts.

(** The entry at each position of a session whose operations all return a
    text. *)
Lemma expected_entries_nth {request response : Type}
    (script : list (operation * env request response)) :
  forall rs i op E text,
    Forall successful rs ->
    nth_error script i = Some (op, E) ->
    nth_error rs i = Some (Ret (Some text)) ->
    nth_error (expected_entries script rs) i
    = Some (saved_entry (now E) (Some (mode_of op)) (message_of op) text).
Proof.
  induction script as [ | [op0 E0] script IH]; intros rs i op E text Hok Hs Hr.
  - destruct i; discriminate.
  - destruct rs as [ | r rs]; [destruct i; discriminate | ].
    inversion Hok as [ | r' rs' [answer ->] Hok1 ]; subst.
    destruct i as [ | i]; cbn in Hs, Hr |- *.
    + injection Hs as -> ->. injection Hr as ->. reflexivity.
    + now apply IH.
Qed.

(** ** Strings: equality, [strip], [join] and [split_lines] *)

Lemma str_eqb_eq (a b : str) : str_eqb a b = true <-> a = b.
Proof.
  revert b. induction a as [ | x a IH]; intros [ | y b]; cbn; split; intros H;
    try reflexivity; try discriminate.
  - apply andb_true_iff in H. destruct H as [Hx Hab].
    apply N.eqb_eq in Hx. apply IH in Hab. now subst.
  - injection H as -> ->. apply andb_true_iff. split; [apply N.eqb_refl | now apply IH].
Qed.

Lemma str_eqb_neq (a b : str) : str_eqb a b = false <-> a <> b.
Proof.
  split; intros H.
  - intros Heq. apply str_eqb_eq in Heq. congruence.
  - destruct (str_eqb a b) eqn:Hab; [ | reflexivity].
    apply str_eqb_eq in Hab. contradiction.
Qed.

Lemma lstrip_starts_clean (s : str) : starts_clean (lstrip s).
Proof.
  induction s as [ | c s IH]; cbn; [exact I | ].
  destruct (isspace c) eqn:Hc; [exact IH | exact Hc].
Qed.

Lemma lstrip_clean (s : str) : starts_clean s -> lstrip s = s.
Proof. destruct s as [ | c s]; cbn; [reflexivity | ]. now intros ->. Qed.

Lemma lstrip_incl (s : str) (c : N) : In c (lstrip s) -> In c s.
Proof.
  induction s as [ | x s IH]; cbn; [tauto | ].
  destruct (isspace x); cbn; tauto.
Qed.

(** [lstrip] of a concatenation: the first part is all blanks and goes, or
    its stripped rest stays in front. *)
Lemma lstrip_app (a b : str) :
  lstrip (a ++ b) = match lstrip a with
                    | [] => lstrip b
                    | _ => lstrip a ++ b
                    end.
Proof.
  induction a as [ | c a IH]; cbn; [reflexivity | ].
  destruct (isspace c); [exact IH | reflexivity].
Qed.

Lemma rstrip_keeps_start (s : str) : starts_clean s -> starts_clean (rstrip s).
Proof.
  destruct s as [ | c s]; [intros _; exact I | ].
  cbn [starts_clean]. intros Hc. unfold rstrip. cbn [rev].
  rewrite lstrip_app. cbn [lstrip]. rewrite Hc.
  destruct (lstrip (rev s)) as [ | d z].
  - cbn. exact Hc.
  - rewrite rev_app_distr. cbn. exact Hc.
Qed.

(** A stripped text starts and ends with a character that is not blank, so
    stripping it again changes nothing. *)
Lemma strip_is_stripped (s : str) :
  lstrip (strip s) = strip s /\ rstrip (strip s) = strip s.
Proof.
  split.
  - apply lstrip_clean, rstrip_keeps_start, lstrip_starts_clean.
  - unfold strip, rstrip at 1.
    rewrite (lstrip_clean (rev (rstrip (lstrip s)))).
    + apply rev_involutive.
    + unfold rstrip. rewrite rev_involutive. apply lstrip_starts_clean.
Qed.

Lemma join_cons (sep l : str) (ls : list str) :
  ls <> [] -> join sep (l :: ls) = l ++ sep ++ join sep ls.
Proof. destruct ls; [congruence | reflexivity]. Qed.

Lemma join_snoc (sep l : str) (ls : list str) :
  ls <> [] -> join sep (ls ++ [l]) = join sep ls ++ sep ++ l.
Proof.
  induction ls as [ | x ls IH]; [congruence | intros _].
  destruct ls as [ | y ls]; [reflexivity | ].
  change ((x :: y :: ls) ++ [l]) with (x :: ((y :: ls) ++ [l])).
  rewrite (@join_cons sep x ((y :: ls) ++ [l])) by discriminate.
  rewrite IH by discriminate.
  rewrite (@join_cons sep x (y :: ls)) by discriminate.
  now rewrite <- !app_assoc.
Qed.

Lemma rev_join (sep : str) (ls : list str) :
  rev (join sep ls) = join (rev sep) (rev (map (@rev N) ls)).
Proof.
  induction ls as [ | l ls IH]; [reflexivity | ].
  destruct ls as [ | y ls]; [reflexivity | ].
  rewrite join_cons by discriminate.
  cbn [map rev] in IH |- *.
  rewrite join_snoc.
  - rewrite !rev_app_distr, IH, <- !app_assoc. reflexivity.
  - destruct (rev (map (@rev N) ls)); discriminate.
Qed.

Lemma proper_rev (ls : list str) :
  proper_lines ls -> proper_lines (rev (map (@rev N) ls)).
Proof.
  unfold proper_lines. intros H. apply Forall_rev.
  induction H as [ | l ls [Hne Hnl] _ IH]; cbn; constructor; [ | exact IH].
  split.
  - intros Hr. apply Hne. apply (f_equal (@rev N)) in Hr.
    now rewrite rev_involutive in Hr.
  - unfold no_newline in *. now rewrite <- in_rev.
Qed.

(** Stripping the left of joined lines gives joined lines again. *)
Lemma lstrip_join (ls : list str) :
  proper_lines ls ->
  exists ls', proper_lines ls' /\ lstrip (join newline ls) = join newline ls'.
Proof.
  induction ls as [ | l ls IH]; intros H.
  - exists []. split; [constructor | reflexivity].
  - inversion H as [ | l0 ls0 [Hne Hnl] Hrest ]; subst.
    destruct (IH Hrest) as (ls1 & Hp1 & He1).
    assert (Hstay : lstrip l <> [] -> proper_lines (lstrip l :: ls)).
    { intros Hs. constructor; [ | exact Hrest].
      split; [exact Hs | ]. intros Hin. apply Hnl. now apply lstrip_incl. }
    destruct ls as [ | y ls].
    + cbn [join]. destruct (lstrip l) as [ | c z] eqn:Hl.
      * exists []. split; [constructor | reflexivity].
      * exists [c :: z]. split; [ | reflexivity].
        apply Hstay. discriminate.
    + rewrite join_cons by discriminate. rewrite lstrip_app.
      destruct (lstrip l) as [ | c z] eqn:Hl.
      * exists ls1. split; [exact Hp1 | ]. exact He1.
      * exists ((c :: z) :: y :: ls). split; [apply Hstay; discriminate | ].
        reflexivity.
Qed.

Lemma strip_join (ls : list str) :
  proper_lines ls ->
  exists ls', proper_lines ls' /\ strip (join newline ls) = join newline ls'.
Proof.
  intros H. unfold strip, rstrip.
  destruct (lstrip_join H) as (ls1 & Hp1 & ->).
  rewrite rev_join. change (rev newline) with newline.
  destruct (lstrip_join (proper_rev Hp1)) as (ls2 & Hp2 & ->).
  rewrite rev_join. change (rev newline) with newline.
  eexists. split; [apply proper_rev, Hp2 | reflexivity].
Qed.

Lemma split_lines_plain (l : str) : no_newline l -> split_lines l = [l].
Proof.
  unfold no_newline. induction l as [ | c l IH]; intros H; [reflexivity | ].
  cbn in H |- *. destruct (N.eqb_spec c 10) as [-> | Hc]; [tauto | ].
  rewrite IH by tauto. reflexivity.
Qed.

Lemma split_lines_app (l rest : str) :
  no_newline l ->
  split_lines (l ++ newline ++ rest) = l :: split_lines rest.
Proof.
  unfold no_newline. induction l as [ | c l IH]; intros H; [reflexivity | ].
  cbn in H. cbn [app split_lines].
  destruct (N.eqb_spec c 10) as [-> | Hc]; [tauto | ].
  rewrite IH by tauto. reflexivity.
Qed.

Lemma split_lines_join (ls : list str) :
  proper_lines ls -> ls <> [] -> split_lines (join newline ls) = ls.
Proof.
  induction ls as [ | l ls IH]; intros H Hne; [congruence | ].
  inversion H as [ | l0 ls0 [_ Hnl] Hrest ]; subst.
  destruct ls as [ | y ls].
  - cbn [join]. now apply split_lines_plain.
  - rewrite join_cons by discriminate.
    rewrite split_lines_app by assumption.
    rewrite IH by (assumption || discriminate). reflexivity.
Qed.

(** Stripped joined lines have no blank line, unless nothing is left. *)
Lemma strip_join_no_blank_line (ls : list str) :
  proper_lines ls ->
  strip (join newline ls) = [] \/ no_blank_line (strip (join newline ls)).
Proof.
  intros H. destruct (strip_join H) as (ls' & Hp & ->).
  destruct ls' as [ | l ls']; [left; reflexivity | right].
  unfold no_blank_line. rewrite split_lines_join by (assumption || discriminate).
  eapply Forall_impl; [ | exact Hp]. now intros a [Ha _].
Qed.

(** ** The collector loop *)

Section CollectorFacts.
Variable upper_ext : N -> str.

(** A line with content that is not the cancel word is kept, and the count
    of blank lines starts again. *)
Lemma read_lines_keeps (line : str) (pending lines : list str) (count : nat) :
  line <> lit "" ->
  upper upper_ext line <> lit "CANCEL" ->
  read_lines upper_ext (line :: pending) lines count
  = read_lines upper_ext pending (lines ++ [line]) 0.
Proof.
  intros Hne Hnc. cbn [read_lines].
  apply str_eqb_neq in Hne, Hnc. now rewrite Hnc, Hne.
Qed.

(** A blank line only counts: one is passed over, the second ends the loop. *)
Lemma read_lines_blank (pending lines : list str) (count : nat) :
  read_lines upper_ext (lit "" :: pending) lines count
  = if (2 <=? S count)%nat
    then (Ret (Some (strip (join newline lines))), pending)
    else read_lines upper_ext pending lines (S count).
Proof. reflexivity. Qed.

(** The text the loop returns is made of the lines with content it read. *)
Lemma read_lines_result (pending : list str) :
  forall lines count text rest,
    read_lines upper_ext pending lines count = (Ret (Some text), rest) ->
    exists consumed,
      pending = consumed ++ rest
      /\ text = strip (join newline (lines ++ filter nonempty consumed)).
Proof.
  induction pending as [ | line pending IH]; intros lines count text rest H.
  - discriminate.
  - cbn [read_lines] in H.
    destruct (str_eqb (upper upper_ext line) (lit "CANCEL")); [discriminate | ].
    destruct (str_eqb line (lit "")) eqn:Hblank.
    + destruct (2 <=? S count)%nat.
      * injection H as <- <-. exists [line]. split; [reflexivity | ].
        cbn [filter]. unfold nonempty. rewrite Hblank. cbn. now rewrite app_nil_r.
      * destruct (IH _ _ _ _ H) as (consumed & -> & ->).
        exists (line :: consumed). split; [reflexivity | ].
        cbn [filter]. unfold nonempty at 2. rewrite Hblank. reflexivity.
    + destruct (IH _ _ _ _ H) as (consumed & -> & ->).
      exists (line :: consumed). split; [reflexivity | ].
      cbn [filter]. unfold nonempty at 2. rewrite Hblank. cbn [negb].
      now rewrite <- app_assoc.
Qed.

Lemma filter_nonempty_proper (ls : list str) :
  Forall no_newline ls -> proper_lines (filter nonempty ls).
Proof.
  unfold proper_lines. induction 1 as [ | l ls Hl _ IH]; cbn; [constructor | ].
  unfold nonempty at 1. destruct (str_eqb l (lit "")) eqn:Hb; cbn; [exact IH | ].
  constructor; [ | exact IH]. split; [ | exact Hl]. now apply str_eqb_neq.
Qed.

(** Every spelling of the cancel word is recognised. *)
Lemma cancel_variants_recognised :
  Forall (fun line => str_eqb (upper upper_ext line) (lit "CANCEL") = true)
    (case_variants (lit "CANCEL")).
Proof. vm_compute. repeat constructor. Qed.

End CollectorFacts.

(** ** The collector on small inputs *)

Section CollectorExamples.
Variable upper_ext : N -> str.

Example collect_two_lines :
  read_lines upper_ext [lit "line1"; lit "line2"; lit ""; lit ""] [] 0
  = (Ret (Some (lit "line1" ++ newline ++ lit "line2")), []).
Proof. reflexivity. Qed.

Example collect_cancel :
  read_lines upper_ext [lit "a"; lit "Cancel"; lit "b"] [] 0 = (Ret None, [lit "b"]).
Proof. reflexivity. Qed.

Example collect_eof :
  read_lines upper_ext [lit "a"; lit ""] [] 0 = (Raise EOFError, []).
Proof. reflexivity. Qed.
End CollectorExamples.

(** ** Two corner cases of the adapter *)

(** A history file that parses to something other than an array: the entry
    is already in the session list when [history.append] raises inside the
    adapter's [try], so the operation returns [None] and the file is left
    as it was. *)
Example non_array_file_records_and_fails :
  let '(r, (self', w')) :=
    OpenAI.answer_faq (lit "Capital of France?") openai_env_ok
      (OpenAI.init, openai_world (Holds (JObject []))) in
  r = Ret None
  /\ conversation_history self'
     = [Entry sample_clock (Some (lit "FAQ")) (lit "Capital of France?") (lit "Paris.")]
  /\ history_file w' = Holds (JObject [])
  /\ stdout w'
     = [newline ++ robot_face ++ lit " Processing your question...";
        newline ++ cross_mark
        ++ lit " Error communicating with OpenAI API: "
        ++ lit "'dict' object has no attribute 'append'"].
Proof. vm_compute. repeat split. Qed.

(** [send_to_openai] called on a new object, outside the two operations,
    saves the mode it finds: [None]. *)
Example send_without_operation_has_no_mode :
  conversation_history
    (fst (snd (OpenAI.send_to_openai (lit "hi") None openai_env_ok
                 (OpenAI.init, openai_world Missing))))
  = [Entry sample_clock None (lit "hi") (lit "Paris.")].
Proof. reflexivity. Qed.

(** * The claims *)

(** C1.  For every call of [_save_to_history] (the same function in both
    scripts) the entry that is appended to the session list, and written to
    the on-disk array when the write goes through, has in [user_input] and
    in [ai_response] the first 200 characters of the text followed by "..."
    when the text is longer than 200 characters, and the text itself when
    its length is at most 200. *)
Theorem save_to_history_truncates {request response : Type}
    (sent received : str) (m : option str)
    (E : env request response) (self : AIChatbot) (w : world request) :
  exists e r self' w',
    _save_to_history sent received m E (self, w) = (r, (self', w'))
    /\ conversation_history self' = conversation_history self ++ [e]
    /\ (forall items,
          write E = Written -> loaded (history_file w) = JArray items ->
          history_file w' = Holds (JArray (items ++ [entry_json e])))
    /\ ((200 < len sent)%nat -> user_input e = slice_to 200 sent ++ lit "...")
    /\ ((len sent <= 200)%nat -> user_input e = sent)
    /\ ((200 < len received)%nat ->
        ai_response e = slice_to 200 received ++ lit "...")
    /\ ((len received <= 200)%nat -> ai_response e = received).
Proof.
  exists (saved_entry (now E) m sent received).
  rewrite save_to_history_eq. cbv zeta.
  destruct (loaded (history_file w)) as [ | b | z | r | t | items | members ] eqn:Hl.
  6: destruct (write E) as [ | x leaves] eqn:Hw.
  all: do 3 eexists; split; [reflexivity | ].
  all: cbn [conversation_history history_file saved_entry user_input ai_response].
  all: split; [reflexivity | ].
  all: split; [ intros items' Hwr Hld; try discriminate | ].
  all: try (injection Hld as <-; reflexivity).
  all: repeat split; auto using truncate_long, truncate_fits.
Qed.

Lemma save_to_history_truncates_witness :
  exists e,
    conversation_history
      (fst (snd (_save_to_history (repeat 97 201) (lit "ok") (Some (lit "FAQ"))
                   openai_env_ok (OpenAI.init, openai_world Missing))))
    = [e]
    /\ user_input e = repeat 97 200 ++ lit "..."
    /\ ai_response e = lit "ok".
Proof.
  destruct (save_to_history_truncates (repeat 97 201) (lit "ok") (Some (lit "FAQ"))
              openai_env_ok OpenAI.init (openai_world Missing))
    as (e & r & self' & w' & Heq & Hh & _ & Hlong & _ & _ & Hfits).
  exists e. rewrite Heq. cbn [fst snd]. split; [exact Hh | ]. split.
  - apply Hlong. vm_compute. lia.
  - apply Hfits. vm_compute. lia.
Defined.

(** C2.  When the provider call of [answer_faq] or [summarize_text] raises,
    the operation returns [None], and the session list and the history file
    are what they were before the operation.  Stated for chatbot.py and for
    geminiChatBot.py. *)
Theorem provider_failure_leaves_no_entry (e : exn)
    (E : env OpenAI.request OpenAI.response) (w : world OpenAI.request)
    (G : env Gemini.request Gemini.response) (v : world Gemini.request)
    (self : AIChatbot) :
  (forall question,
      provider E (openai_request question (Some Config.FAQ_SYSTEM_PROMPT)) = Raise e ->
      leaves_no_entry (OpenAI.answer_faq question) E self w)
  /\ (forall text,
        provider E (openai_request (summarize_prompt text)
                      (Some Config.SUMMARIZE_SYSTEM_PROMPT)) = Raise e ->
        leaves_no_entry (OpenAI.summarize_text text) E self w)
  /\ (forall question,
        provider G (gemini_request question (Some Config.FAQ_SYSTEM_PROMPT)) = Raise e ->
        leaves_no_entry (Gemini.answer_faq question) G self v)
  /\ (forall text,
        provider G (gemini_request (summarize_prompt text)
                      (Some Config.SUMMARIZE_SYSTEM_PROMPT)) = Raise e ->
        leaves_no_entry (Gemini.summarize_text text) G self v).
Proof.
  repeat split.
  - intros question H.
    destruct (perform_cases _ _ _ _ openai_perform_eq (AnswerFaq question) E self w)
      as (o & self' & w' & Heq & _ & _ & Hcase).
    cbn [message_of system_prompt_of] in Hcase. rewrite H in Hcase.
    destruct Hcase as (-> & Hh & Hf & _). now exists self', w'.
  - intros text H.
    destruct (perform_cases _ _ _ _ openai_perform_eq (SummarizeText text) E self w)
      as (o & self' & w' & Heq & _ & _ & Hcase).
    cbn [message_of system_prompt_of] in Hcase. rewrite H in Hcase.
    destruct Hcase as (-> & Hh & Hf & _). now exists self', w'.
  - intros question H.
    destruct (perform_cases _ _ _ _ gemini_perform_eq (AnswerFaq question) G self v)
      as (o & self' & w' & Heq & _ & _ & Hcase).
    cbn [message_of system_prompt_of] in Hcase. rewrite H in Hcase.
    destruct Hcase as (-> & Hh & Hf & _). now exists self', w'.
  - intros text H.
    destruct (perform_cases _ _ _ _ gemini_perform_eq (SummarizeText text) G self v)
      as (o & self' & w' & Heq & _ & _ & Hcase).
    cbn [message_of system_prompt_of] in Hcase. rewrite H in Hcase.
    destruct Hcase as (-> & Hh & Hf & _). now exists self', w'.
Qed.

Lemma provider_failure_leaves_no_entry_witness :
  leaves_no_entry (OpenAI.answer_faq (lit "What is Rocq?")) openai_env_down
    OpenAI.init (openai_world (Holds (JArray [JInt 1])))
  /\ leaves_no_entry (Gemini.summarize_text (lit "A long story.")) gemini_env_down
       Gemini.init (gemini_world (Holds (JArray [JInt 1]))).
Proof.
  destruct (provider_failure_leaves_no_entry connection_error
              openai_env_down (openai_world (Holds (JArray [JInt 1])))
              gemini_env_down (gemini_world (Holds (JArray [JInt 1])))
              OpenAI.init)
    as (Hfaq & _ & _ & Hsum).
  split.
  - apply Hfaq. reflexivity.
  - apply Hsum. reflexivity.
Defined.

(** C5.  Whatever exception the provider call raises, [send_to_openai]
    returns [None] to its caller instead of raising, after printing the
    diagnostic line made of the exception's text; and no call of
    [send_to_openai] raises at all.  Stated for chatbot.py and for
    geminiChatBot.py. *)
Theorem send_to_openai_catches (user_message : str) (system_prompt : option str)
    (e : exn)
    (E : env OpenAI.request OpenAI.response) (w : world OpenAI.request)
    (G : env Gemini.request Gemini.response) (v : world Gemini.request)
    (self : AIChatbot) :
  (provider E (openai_request user_message system_prompt) = Raise e ->
   reports (OpenAI.send_to_openai user_message system_prompt)
     (newline ++ cross_mark
      ++ lit " Error communicating with OpenAI API: " ++ exn_str e) E self w)
  /\ (provider G (gemini_request user_message system_prompt) = Raise e ->
      reports (Gemini.send_to_openai user_message system_prompt)
        (newline ++ cross_mark
         ++ lit " Error communicating with Gemini API: " ++ exn_str e) G self v)
  /\ returns (OpenAI.send_to_openai user_message system_prompt) E (self, w)
  /\ returns (Gemini.send_to_openai user_message system_prompt) G (self, v).
Proof.
  unfold reports, returns. repeat split.
  - intros H. rewrite openai_send_eq. cbv zeta. rewrite H. cbn [openai_reply].
    rewrite settle_eq. do 2 eexists. split; reflexivity.
  - intros H. rewrite gemini_send_eq. cbv zeta. rewrite H. cbn [gemini_reply].
    rewrite settle_eq. do 2 eexists. split; reflexivity.
  - rewrite openai_send_eq. cbv zeta.
    match goal with
    | |- context [settle ?a ?b ?c ?d (?s, ?x)] =>
        destruct (settle_cases a b c d s x) as (o & self' & w' & Heq & _)
    end.
    rewrite Heq. now do 2 eexists.
  - rewrite gemini_send_eq. cbv zeta.
    match goal with
    | |- context [settle ?a ?b ?c ?d (?s, ?x)] =>
        destruct (settle_cases a b c d s x) as (o & self' & w' & Heq & _)
    end.
    rewrite Heq. now do 2 eexists.
Qed.

Lemma send_to_openai_catches_witness :
  reports (OpenAI.send_to_openai (lit "hello") None)
    (newline ++ cross_mark
     ++ lit " Error communicating with OpenAI API: Connection error.")
    openai_env_down OpenAI.init (openai_world Missing)
  /\ reports (Gemini.send_to_openai (lit "hello") None)
       (newline ++ cross_mark
        ++ lit " Error communicating with Gemini API: Connection error.")
       gemini_env_down Gemini.init (gemini_world Missing).
Proof.
  destruct (send_to_openai_catches (lit "hello") None connection_error
              openai_env_down (openai_world Missing)
              gemini_env_down (gemini_world Missing) OpenAI.init)
    as (Ho & Hg & _).
  split.
  - apply Ho. reflexivity.
  - apply Hg. reflexivity.
Defined.

(** C3 as it is written: the request message of [summarize_text] would be
    "provide a summary of the following text:" followed by two newlines and
    the text.  On the text "abc" the message chatbot.py sends is another. *)
Lemma summarize_message_not_as_stated :
  last_user_message
    (snd (snd (OpenAI.summarize_text (lit "abc") openai_env_ok
                 (OpenAI.init, openai_world Missing))))
  <> Some (lit "provide a summary of the following text:"
           ++ newline ++ newline ++ lit "abc").
Proof. vm_compute. discriminate. Qed.

(** C3, amended.  [summarize_text text] sets the current mode to SUMMARIZE
    and returns what [send_to_openai] returns for the summarization system
    prompt and the message "Please provide a clear and concise summary of
    the following text:", two newlines, then the text; the request the
    client receives carries that prompt and that message.  Stated for
    chatbot.py and for geminiChatBot.py. *)
Theorem summarize_text_calls_adapter (text : str)
    (E : env OpenAI.request OpenAI.response) (w : world OpenAI.request)
    (G : env Gemini.request Gemini.response) (v : world Gemini.request)
    (self : AIChatbot) :
  let message :=
    lit "Please provide a clear and concise summary of the following text:"
    ++ newline ++ newline ++ text in
  let said := newline ++ memo ++ lit " Generating summary..." in
  let started := Bot (conversation_history self) (Some (lit "SUMMARIZE")) in
  OpenAI.summarize_text text E (self, w)
  = OpenAI.send_to_openai message (Some Config.SUMMARIZE_SYSTEM_PROMPT) E
      (started, World (history_file w) (stdout w ++ [said]) (requests w))
  /\ Gemini.summarize_text text G (self, v)
     = Gemini.send_to_openai message (Some Config.SUMMARIZE_SYSTEM_PROMPT) G
         (started, World (history_file v) (stdout v ++ [said]) (requests v))
  /\ (exists o self' w',
        OpenAI.summarize_text text E (self, w) = (Ret o, (self', w'))
        /\ current_mode self' = Some (lit "SUMMARIZE")
        /\ requests w'
           = requests w
             ++ [OpenAI.Request (lit "gpt-3.5-turbo")
                   [OpenAI.Message (lit "system") Config.SUMMARIZE_SYSTEM_PROMPT;
                    OpenAI.Message (lit "user") message]
                   500 (7 # 10)])
  /\ (exists o self' v',
        Gemini.summarize_text text G (self, v) = (Ret o, (self', v'))
        /\ current_mode self' = Some (lit "SUMMARIZE")
        /\ requests v'
           = requests v
             ++ [Gemini.Request (lit "gemini-2.5-flash")
                   (strip Config.SUMMARIZE_SYSTEM_PROMPT ++ newline ++ newline
                    ++ strip message)
                   (Gemini.GenerateContentConfig (7 # 10) 500)]).
Proof.
  cbv zeta. repeat split.
  - destruct w as [f out reqs], self as [hist cm].
    unfold OpenAI.summarize_text.
    unfold bind at 1; unfold set_current_mode at 1.
    unfold bind at 1; unfold print at 1.
    rewrite bind_ret_r. reflexivity.
  - destruct v as [f out reqs], self as [hist cm].
    unfold Gemini.summarize_text.
    unfold bind at 1; unfold set_current_mode at 1.
    unfold bind at 1; unfold print at 1.
    rewrite bind_ret_r. reflexivity.
  - destruct (perform_cases _ _ _ _ openai_perform_eq (SummarizeText text) E self w)
      as (o & self' & w' & Heq & Hmode & Hreq & _).
    exists o, self', w'. repeat split; assumption.
  - destruct (perform_cases _ _ _ _ gemini_perform_eq (SummarizeText text) G self v)
      as (o & self' & v' & Heq & Hmode & Hreq & _).
    exists o, self', v'. repeat split; assumption.
Qed.

(** C7.  When the history file is missing or cannot be read or parsed,
    [_save_to_history] returns normally, with the entry appended to the
    session list; the array it writes holds that entry alone, so a write
    that goes through leaves the one-entry array on disk, and a write that
    fails leaves a warning; a warning about the load is printed when the
    file exists and not when it is missing; and [send_to_openai] still
    returns the text to its caller. *)
Theorem save_tolerates_unreadable_file (sent received : str) (m : option str)
    (E : env OpenAI.request OpenAI.response) (self : AIChatbot)
    (w : world OpenAI.request) :
  history_file w = Missing \/ (exists why, history_file w = Unreadable why) ->
  let e := saved_entry (now E) m sent received in
  (exists self' w',
      _save_to_history sent received m E (self, w) = (Ret tt, (self', w'))
      /\ conversation_history self' = conversation_history self ++ [e]
      /\ (write E = Written -> history_file w' = Holds (JArray [entry_json e]))
      /\ (forall x leaves,
            write E = WriteFails x leaves ->
            exists before,
              stdout w'
              = before ++ [lit "Warning: Could not save to history file: " ++ exn_str x])
      /\ (history_file w = Missing -> write E = Written -> stdout w' = stdout w)
      /\ (forall why,
            history_file w = Unreadable why ->
            exists more,
              stdout w'
              = stdout w
                ++ [lit "Warning: Could not load history file: " ++ exn_str why]
                ++ more))
  /\ (forall user_message system_prompt content more,
        provider E (openai_request user_message system_prompt)
        = Ret (OpenAI.Response (Some content :: more)) ->
        exists st',
          OpenAI.send_to_openai user_message system_prompt E (self, w)
          = (Ret (Some (strip content)), st')).
Proof.
  intros Hfile e. split.
  - rewrite save_to_history_eq. cbv zeta.
    assert (Hl : loaded (history_file w) = JArray []).
    { destruct Hfile as [-> | [why ->]]; reflexivity. }
    rewrite Hl.
    destruct (write E) as [ | x leaves] eqn:Hw; do 2 eexists;
      (split; [reflexivity | ]); cbn [conversation_history history_file stdout];
      (split; [reflexivity | ]).
    + split; [reflexivity | ]. split; [intros x leaves Hx; discriminate | ].
      split.
      * intros Hm _. rewrite Hm. cbn. now rewrite app_nil_r.
      * intros why Hu. rewrite Hu. exists []. reflexivity.
    + split; [intros Hx; discriminate | ].
      split; [intros x' leaves' Hx; injection Hx as <- <-; eexists; reflexivity | ].
      split; [intros _ Hx; discriminate | ].
      intros why Hu. rewrite Hu. eexists. cbn [load_warning].
      rewrite <- app_assoc. reflexivity.
  - intros user_message system_prompt content more Hp.
    rewrite openai_send_eq. cbv zeta. rewrite Hp. cbn [openai_reply OpenAI.choices].
    rewrite settle_eq. cbv zeta. cbn [history_file].
    assert (Hl : loaded (history_file w) = JArray []).
    { destruct Hfile as [-> | [why ->]]; reflexivity. }
    rewrite Hl. destruct (write E); eexists; reflexivity.
Qed.

Lemma save_tolerates_unreadable_file_witness :
  exists self' w',
    _save_to_history (lit "hi") (lit "hello") (Some (lit "FAQ")) openai_env_ok
      (OpenAI.init,
       openai_world (Unreadable (Exn (lit "JSONDecodeError") (lit "Expecting value"))))
    = (Ret tt, (self', w'))
    /\ conversation_history self'
       = [Entry sample_clock (Some (lit "FAQ")) (lit "hi") (lit "hello")]
    /\ history_file w'
       = Holds (JArray [entry_json (Entry sample_clock (Some (lit "FAQ"))
                                      (lit "hi") (lit "hello"))]).
Proof.
  destruct (save_tolerates_unreadable_file (lit "hi") (lit "hello") (Some (lit "FAQ"))
              openai_env_ok OpenAI.init
              (openai_world (Unreadable (Exn (lit "JSONDecodeError")
                                            (lit "Expecting value"))))
              (or_intror (ex_intro _ _ eq_refl)))
    as [(self' & w' & Heq & Hh & Hf & _) _].
  exists self', w'. split; [exact Heq | ]. split; [exact Hh | ].
  apply Hf. reflexivity.
Defined.

(** C6, on a history file that holds the JSON object {}.  Two operations
    whose provider calls give a text both return [None]: none is a
    successful operation, yet the session list holds their two entries.
    Each entry is appended before [history.append] raises on the loaded
    object, outside the two [try] blocks of [_save_to_history]; the
    adapter's [except] takes the error for one of the API.  The file is
    left as it was. *)
Theorem non_array_file_breaks_entry_count :
  let '(rs, (self', w')) :=
    run_session openai_perform two_questions
      (OpenAI.init, openai_world (Holds (JObject []))) in
  rs = [Ret None; Ret None]
  /\ count_successful rs = 0%nat
  /\ conversation_history self'
     = [ Entry sample_clock (Some (lit "FAQ")) (lit "Capital of France?")
           (lit "Paris.");
         Entry (lit "2025-10-01 12:00:05") (Some (lit "SUMMARIZE"))
           (summarize_prompt (lit "Paris is the capital of France."))
           (lit "Paris, capital.") ]
  /\ history_file w' = Holds (JObject []).
Proof. vm_compute. repeat split. Qed.

(** C8.  In every session of [answer_faq] and [summarize_text] calls on a
    new chatbot object, each entry of the session list has its mode set, to
    FAQ or to SUMMARIZE, never [None]; and the record persisted for it has
    the four keys timestamp, mode, user_input and ai_response, none of them
    null. *)
Theorem saved_entries_have_mode
    (script : list (operation * env OpenAI.request OpenAI.response))
    (w : world OpenAI.request) :
  Forall (fun e => mode_set e /\ mode e <> None /\ populated e)
    (conversation_history (fst (snd (run_session openai_perform script
                                       (OpenAI.init, w))))).
Proof.
  destruct (run_session openai_perform script (OpenAI.init, w))
    as [rs [self' w']] eqn:Hrun.
  cbn [fst snd].
  refine (@session_keeps _ _ _ _ _ _ openai_perform_eq _ _
            script OpenAI.init w rs self' w' (Forall_nil _) Hrun).
  intros stamp op text. unfold mode_set, populated.
  destruct op; cbn; repeat split; auto; try discriminate;
    repeat constructor; cbn; discriminate.
Qed.

(** C10.  [user_input] and [ai_response] of a saved entry are at most 203
    characters long: the truncation gives at most 203 characters whatever
    the text; every entry of the session list of a session has both fields
    within the bound, in chatbot.py and in geminiChatBot.py; and when the
    writes go through, an on-disk array whose records were within the bound
    at the start holds only such records at the end. *)
Theorem saved_fields_bounded :
  (forall text, (len (truncate text) <= 203)%nat)
  /\ (forall (script : list (operation * env OpenAI.request OpenAI.response)) w,
        Forall bounded
          (conversation_history
             (fst (snd (run_session openai_perform script (OpenAI.init, w))))))
  /\ (forall (script : list (operation * env Gemini.request Gemini.response)) v,
        Forall bounded
          (conversation_history
             (fst (snd (run_session gemini_perform script (Gemini.init, v))))))
  /\ (forall (script : list (operation * env OpenAI.request OpenAI.response)) w,
        writes_succeed script ->
        Forall bounded_record (array_items (history_file w)) ->
        Forall bounded_record
          (array_items
             (history_file (snd (snd (run_session openai_perform script
                                        (OpenAI.init, w))))))).
Proof.
  assert (Hb : forall stamp op text,
             bounded (saved_entry stamp (Some (mode_of op)) (message_of op) text)).
  { intros. split; apply truncate_bound. }
  repeat split.
  - apply truncate_bound.
  - intros script w.
    destruct (run_session openai_perform script (OpenAI.init, w))
      as [rs [self' w']] eqn:Hrun.
    exact (@session_keeps _ _ _ _ _ _ openai_perform_eq bounded Hb
             script OpenAI.init w rs self' w' (Forall_nil _) Hrun).
  - intros script v.
    destruct (run_session gemini_perform script (Gemini.init, v))
      as [rs [self' v']] eqn:Hrun.
    exact (@session_keeps _ _ _ _ _ _ gemini_perform_eq bounded Hb
             script Gemini.init v rs self' v' (Forall_nil _) Hrun).
  - intros script w Hw Hinit.
    destruct (run_session openai_perform script (OpenAI.init, w))
      as [rs [self' w']] eqn:Hrun.
    refine (@session_keeps_on_disk _ _ _ _ _ _ openai_perform_eq bounded_record _
              script OpenAI.init w rs self' w' Hw Hinit Hrun).
    intros stamp op text. eexists. split; [reflexivity | apply Hb].
Qed.

Lemma saved_fields_bounded_witness :
  Forall bounded_record
    (array_items
       (history_file
          (snd (snd (run_session openai_perform two_questions
                       (OpenAI.init, openai_world Missing)))))).
Proof.
  destruct saved_fields_bounded as (_ & _ & _ & Hdisk).
  apply Hdisk.
  - repeat constructor.
  - constructor.
Defined.

(** C4.  The lines "line1", "line2", "", "" give the text "line1", newline,
    "line2"; a first line that spells CANCEL in any mix of upper and lower
    case gives [None], which is not the empty text that two blank lines
    give. *)
Theorem collector_terminator_and_cancel (upper_ext : N -> str) (prompt : str)
    (rest out : list str) :
  get_multiline_input upper_ext prompt
    (Console ([lit "line1"; lit "line2"; lit ""; lit ""] ++ rest) out)
  = (Ret (Some (lit "line1" ++ newline ++ lit "line2")),
     Console rest (out ++ collector_banner prompt))
  /\ (forall line,
        In line (case_variants (lit "CANCEL")) ->
        get_multiline_input upper_ext prompt (Console (line :: rest) out)
        = (Ret None, Console rest (out ++ collector_banner prompt)))
  /\ get_multiline_input upper_ext prompt (Console ([lit ""; lit ""] ++ rest) out)
     = (Ret (Some (lit "")), Console rest (out ++ collector_banner prompt))
  /\ Ret (@None str) <> Ret (Some (lit "")).
Proof.
  repeat split.
  - unfold get_multiline_input, collector_banner. cbn. now rewrite <- app_assoc.
  - intros line Hin.
    pose proof (cancel_variants_recognised upper_ext) as Hall.
    rewrite Forall_forall in Hall. specialize (Hall line Hin).
    unfold get_multiline_input, collector_banner.
    cbn [stdin printed read_lines]. rewrite Hall. now rewrite <- app_assoc.
  - unfold get_multiline_input, collector_banner. cbn. now rewrite <- app_assoc.
  - discriminate.
Qed.

Lemma collector_terminator_and_cancel_witness :
  get_multiline_input (fun c => [c]) (lit "Text:")
    (Console [lit "cAnCeL"; lit "more"] [])
  = (Ret None, Console [lit "more"] (collector_banner (lit "Text:"))).
Proof.
  destruct (collector_terminator_and_cancel (fun c => [c]) (lit "Text:")
              [lit "more"] [])
    as (_ & Hcancel & _).
  apply Hcancel. vm_compute. tauto.
Defined.

(** C9.  The text [get_multiline_input] returns is the strip of the lines
    with content it read, joined by newlines: every blank line is left
    out, so the text has no blank line (when it is not empty), and "a",
    "", "b", "", "" give "a", newline, "b"; a line that is not exactly
    empty, a whitespace-only line included, is kept and sets the count of
    blank lines back to zero; and the text has no blank at either end. *)
Theorem collector_drops_blank_lines (upper_ext : N -> str) (prompt : str) :
  (forall c c' text,
      get_multiline_input upper_ext prompt c = (Ret (Some text), c') ->
      exists consumed,
        stdin c = consumed ++ stdin c'
        /\ text = strip (join newline (filter nonempty consumed))
        /\ lstrip text = text /\ rstrip text = text
        /\ (Forall no_newline consumed -> text = [] \/ no_blank_line text))
  /\ (forall rest out,
        get_multiline_input upper_ext prompt
          (Console ([lit "a"; lit ""; lit "b"; lit ""; lit ""] ++ rest) out)
        = (Ret (Some (lit "a" ++ newline ++ lit "b")),
           Console rest (out ++ collector_banner prompt)))
  /\ (forall line pending lines count,
        line <> lit "" ->
        upper upper_ext line <> lit "CANCEL" ->
        read_lines upper_ext (line :: pending) lines count
        = read_lines upper_ext pending (lines ++ [line]) 0)
  /\ (forall rest out,
        get_multiline_input upper_ext prompt
          (Console ([lit "a"; lit ""; lit " "; lit ""; lit "b"; lit ""; lit ""] ++ rest)
             out)
        = (Ret (Some (lit "a" ++ newline ++ lit " " ++ newline ++ lit "b")),
           Console rest (out ++ collector_banner prompt))).
Proof.
  repeat split.
  - intros c c' text H. unfold get_multiline_input in H.
    destruct (read_lines upper_ext (stdin c) [] 0) as [r rest] eqn:Hr.
    injection H as -> <-. cbn [stdin].
    destruct (read_lines_result _ _ _ _ Hr) as (consumed & Hc & Ht).
    cbn [app] in Ht. exists consumed. split; [exact Hc | ]. split; [exact Ht | ].
    rewrite Ht. split; [apply strip_is_stripped | ]. split; [apply strip_is_stripped | ].
    intros Hnl. apply strip_join_no_blank_line. now apply filter_nonempty_proper.
  - intros rest out. unfold get_multiline_input, collector_banner. cbn.
    now rewrite <- app_assoc.
  - intros. now apply read_lines_keeps.
  - intros rest out. unfold get_multiline_input, collector_banner. cbn.
    now rewrite <- app_assoc.
Qed.

Lemma collector_drops_blank_lines_witness :
  let c := Console [lit "a"; lit ""; lit "  "; lit "b "; lit ""; lit ""; lit "x"] [] in
  exists text c',
    get_multiline_input (fun c => [c]) (lit "Text:") c = (Ret (Some text), c')
    /\ text = lit "a" ++ newline ++ lit "  " ++ newline ++ lit "b"
    /\ (text = [] \/ no_blank_line text).
Proof.
  cbv zeta.
  destruct (collector_drops_blank_lines (fun c => [c]) (lit "Text:")) as (Hres & _).
  destruct (Hres (Console [lit "a"; lit ""; lit "  "; lit "b "; lit ""; lit ""; lit "x"] [])
              (Console [lit "x"] (collector_banner (lit "Text:")))
              (lit "a" ++ newline ++ lit "  " ++ newline ++ lit "b") eq_refl)
    as (consumed & Hc & _ & _ & _ & Hnb).
  do 2 eexists. split; [reflexivity | ]. split; [reflexivity | ].
  apply Hnb.
  cbn [stdin] in Hc.
  change [lit "a"; lit ""; lit "  "; lit "b "; lit ""; lit ""; lit "x"]
    with ([lit "a"; lit ""; lit "  "; lit "b "; lit ""; lit ""] ++ [lit "x"]) in Hc.
  apply app_inv_tail in Hc. subst consumed.
  unfold no_newline. repeat constructor; vm_compute; intuition discriminate.
Defined.

(** * Further properties of the two scripts *)

(** ** Truncation *)

(** X1.  Truncating a text that is already truncated changes nothing, and
    the first 200 characters of a saved field are the first 200 characters
    of the text. *)
Theorem truncate_idempotent (text : str) :
  truncate (truncate text) = truncate text
  /\ slice_to 200 (truncate text) = slice_to 200 text.
Proof.
  unfold truncate, len, slice_to.
  destruct (Nat.ltb_spec 200 (List.length text)) as [Hlt | Hle].
  - assert (Hl : List.length (firstn 200 text) = 200%nat)
      by (rewrite length_firstn; lia).
    assert (Hf : firstn 200 (firstn 200 text ++ lit "...") = firstn 200 text).
    { rewrite firstn_app, Hl, Nat.sub_diag, firstn_O, app_nil_r.
      apply firstn_all2. lia. }
    split; [ | exact Hf].
    replace (200 <? List.length (firstn 200 text ++ lit "..."))%nat with true.
    + now rewrite Hf.
    + symmetry. apply Nat.ltb_lt. rewrite length_app, Hl. cbn. lia.
  - split; [ | reflexivity].
    destruct (Nat.ltb_spec 200 (List.length text)); [lia | reflexivity].
Qed.

(** ** The adapter and the history store at their edges *)

Lemma is_array_items (doc : json) :
  is_array doc = true -> exists items, doc = JArray items.
Proof. destruct doc; try discriminate. intros _. now eexists. Qed.

Lemma not_array_loaded (doc : json) :
  is_array doc = false -> forall items, doc <> JArray items.
Proof. destruct doc; try discriminate; intros _ items; discriminate. Qed.

(** X2.  A write of the history file that fails does not fail the
    operation of chatbot.py: the text is returned, the entry is in the
    session list, the file is left as the failed write left it, and the
    last line printed is the warning with the error's text. *)
Theorem write_failure_is_tolerated (op : operation) (content : str)
    (more : list (option str)) (x : exn) (leaves : file_state)
    (E : env OpenAI.request OpenAI.response) (self : AIChatbot)
    (w : world OpenAI.request) :
  provider E (openai_request (message_of op) (Some (system_prompt_of op)))
  = Ret (OpenAI.Response (Some content :: more)) ->
  is_array (loaded (history_file w)) = true ->
  write E = WriteFails x leaves ->
  exists self' w',
    openai_perform op E (self, w) = (Ret (Some (strip content)), (self', w'))
    /\ conversation_history self'
       = conversation_history self
         ++ [Entry (now E) (Some (mode_of op)) (truncate (message_of op))
               (truncate (strip content))]
    /\ history_file w' = leaves
    /\ exists before,
         stdout w'
         = before ++ [lit "Warning: Could not save to history file: " ++ exn_str x].
Proof.
  intros Hp Ha Hw. rewrite openai_perform_eq. cbv zeta. rewrite Hp.
  cbn [openai_reply OpenAI.choices]. rewrite settle_eq. cbv zeta.
  cbn [history_file stdout requests conversation_history current_mode].
  destruct (is_array_items _ Ha) as [items ->]. rewrite Hw.
  do 2 eexists. split; [reflexivity | ].
  cbn [history_file stdout conversation_history]. repeat split.
  eexists. reflexivity.
Qed.

Lemma write_failure_is_tolerated_witness :
  exists self' w',
    OpenAI.answer_faq (lit "Capital of France?") write_fails
      (OpenAI.init, openai_world Missing)
    = (Ret (Some (lit "Paris.")), (self', w'))
    /\ List.length (conversation_history self') = 1%nat
    /\ history_file w' = Holds (JArray []).
Proof.
  destruct (@write_failure_is_tolerated (AnswerFaq (lit "Capital of France?"))
              (lit " Paris. ") []
              (Exn (lit "PermissionError") (lit "[Errno 13] Permission denied"))
              (Holds (JArray [])) write_fails OpenAI.init (openai_world Missing)
              eq_refl eq_refl eq_refl)
    as (self' & w' & Heq & Hh & Hf & _).
  exists self', w'. split; [exact Heq | ]. split; [ | exact Hf].
  rewrite Hh. reflexivity.
Defined.

(** X3.  When the history file of chatbot.py parses to JSON that is not
    an array, an operation whose provider call gave a text still returns
    [None]: the entry is put in the session list, then [history.append]
    raises inside the adapter's [try]; the file is not written, and the
    line printed blames the API with the text of the attribute error. *)
Theorem non_array_file_fails_after_recording (op : operation) (content : str)
    (more : list (option str)) (doc : json)
    (E : env OpenAI.request OpenAI.response) (self : AIChatbot)
    (w : world OpenAI.request) :
  provider E (openai_request (message_of op) (Some (system_prompt_of op)))
  = Ret (OpenAI.Response (Some content :: more)) ->
  history_file w = Holds doc ->
  is_array doc = false ->
  exists self' w',
    openai_perform op E (self, w) = (Ret None, (self', w'))
    /\ conversation_history self'
       = conversation_history self
         ++ [Entry (now E) (Some (mode_of op)) (truncate (message_of op))
               (truncate (strip content))]
    /\ history_file w' = Holds doc
    /\ stdout w'
       = stdout w
         ++ [banner op;
             newline ++ cross_mark
             ++ lit " Error communicating with OpenAI API: '"
             ++ py_type_name doc ++ lit "' object has no attribute 'append'"].
Proof.
  intros Hp Hf Hd. rewrite openai_perform_eq. cbv zeta. rewrite Hp.
  cbn [openai_reply OpenAI.choices]. rewrite settle_eq. cbv zeta.
  cbn [history_file stdout requests conversation_history current_mode].
  rewrite Hf. cbn [loaded load_warning].
  destruct doc; try discriminate;
    do 2 eexists; (split; [reflexivity | ]);
    cbn [history_file stdout conversation_history]; repeat split;
    rewrite app_nil_r, <- app_assoc; reflexivity.
Qed.

Lemma non_array_file_fails_after_recording_witness :
  exists self' w',
    OpenAI.summarize_text (lit "A long story.") openai_env_ok
      (OpenAI.init, openai_world (Holds (JString (lit "notes"))))
    = (Ret None, (self', w'))
    /\ List.length (conversation_history self') = 1%nat
    /\ history_file w' = Holds (JString (lit "notes")).
Proof.
  destruct (@non_array_file_fails_after_recording (SummarizeText (lit "A long story."))
              (lit " Paris. ") [] (JString (lit "notes")) openai_env_ok OpenAI.init
              (openai_world (Holds (JString (lit "notes"))))
              eq_refl eq_refl eq_refl)
    as (self' & w' & Heq & Hh & Hf & _).
  exists self', w'. split; [exact Heq | ]. split; [ | exact Hf].
  rewrite Hh. reflexivity.
Defined.

(** X4.  A reply of the OpenAI client without choices, or whose first
    choice has no content, is a failure like any other: [send_to_openai]
    prints the diagnostic with the text of the index or attribute error,
    returns [None], and leaves session list and file alone. *)
Theorem malformed_reply_is_a_failure (user_message : str)
    (system_prompt : option str)
    (E : env OpenAI.request OpenAI.response) (self : AIChatbot)
    (w : world OpenAI.request) :
  (provider E (openai_request user_message system_prompt) = Ret (OpenAI.Response []) ->
   reports (OpenAI.send_to_openai user_message system_prompt)
     (newline ++ cross_mark
      ++ lit " Error communicating with OpenAI API: list index out of range")
     E self w
   /\ leaves_no_entry (OpenAI.send_to_openai user_message system_prompt) E self w)
  /\ (forall more,
        provider E (openai_request user_message system_prompt)
        = Ret (OpenAI.Response (None :: more)) ->
        reports (OpenAI.send_to_openai user_message system_prompt)
          (newline ++ cross_mark
           ++ lit " Error communicating with OpenAI API: "
           ++ lit "'NoneType' object has no attribute 'strip'")
          E self w
        /\ leaves_no_entry (OpenAI.send_to_openai user_message system_prompt) E self w).
Proof.
  unfold reports, leaves_no_entry. split; [intros Hp | intros more Hp];
    rewrite openai_send_eq; cbv zeta; rewrite Hp;
    cbn [openai_reply OpenAI.choices]; rewrite settle_eq;
    split; do 2 eexists; repeat split.
Qed.

Lemma malformed_reply_is_a_failure_witness :
  leaves_no_entry (OpenAI.send_to_openai (lit "hello") None)
    (Env sample_clock (fun _ => Ret (OpenAI.Response [])) Written)
    OpenAI.init (openai_world Missing).
Proof.
  destruct (malformed_reply_is_a_failure (lit "hello") None
              (Env sample_clock (fun _ => Ret (OpenAI.Response [])) Written)
              OpenAI.init (openai_world Missing))
    as [Hempty _].
  apply Hempty. reflexivity.
Defined.

(** X5.  When the reply of the Gemini client has no [text], the adapter
    of geminiChatBot.py takes [str(response)] for the answer: its strip is
    what is saved, and what is returned when the history file holds an
    array or can be taken for the empty one. *)
Theorem gemini_falls_back_to_repr (user_message : str) (system_prompt : option str)
    (rp : str)
    (G : env Gemini.request Gemini.response) (self : AIChatbot)
    (v : world Gemini.request) :
  provider G (gemini_request user_message system_prompt)
  = Ret (Gemini.Response None rp) ->
  exists o self' v',
    Gemini.send_to_openai user_message system_prompt G (self, v)
    = (Ret o, (self', v'))
    /\ conversation_history self'
       = conversation_history self
         ++ [Entry (now G) (current_mode self) (truncate user_message)
               (truncate (strip rp))]
    /\ (is_array (loaded (history_file v)) = true -> o = Some (strip rp)).
Proof.
  intros Hp. rewrite gemini_send_eq. cbv zeta. rewrite Hp.
  cbn [gemini_reply Gemini.text Gemini.repr].
  match goal with
  | |- context [settle ?a ?b ?c ?d (?s, ?x)] =>
      destruct (settle_cases a b c d s x) as (o & self' & v' & Heq & _ & _ & Hcase)
  end.
  cbn [history_file conversation_history current_mode] in Hcase.
  exists o, self', v'. split; [exact Heq | ].
  destruct Hcase as [Hh Hdisk]. split; [exact Hh | ].
  intros Ha. destruct (is_array_items _ Ha) as [items Hl].
  destruct Hdisk as [[Ho _] | [_ [_ Hno]]]; [exact Ho | ].
  now elim (Hno items).
Qed.

Lemma gemini_falls_back_to_repr_witness :
  exists o self' v',
    Gemini.send_to_openai (lit "hello") None
      (Env sample_clock (fun _ => Ret (Gemini.Response None (lit " candidates=[] ")))
           Written)
      (Gemini.init, gemini_world Missing)
    = (Ret o, (self', v'))
    /\ o = Some (lit "candidates=[]").
Proof.
  destruct (@gemini_falls_back_to_repr (lit "hello") None (lit " candidates=[] ")
              (Env sample_clock
                   (fun _ => Ret (Gemini.Response None (lit " candidates=[] "))) Written)
              Gemini.init (gemini_world Missing) eq_refl)
    as (o & self' & v' & Heq & _ & Ho).
  exists o, self', v'. split; [exact Heq | ]. apply Ho. reflexivity.
Defined.

Lemma settle_some {request response : Type} (api sent : str) (reply : outcome str)
    (E : env request response) (self : AIChatbot) (w : world request)
    (t : str) (st' : state request) :
  settle api sent reply E (self, w) = (Ret (Some t), st') -> reply = Ret t.
Proof.
  intros H.
  destruct (settle_cases api sent reply E self w)
    as (o & self' & w' & Heq & _ & _ & Hcase).
  rewrite Heq in H. injection H as -> _.
  destruct reply as [text | e].
  - destruct Hcase as [_ [[Ho _] | [Ho _]]]; congruence.
  - destruct Hcase as [Ho _]. discriminate.
Qed.

(** X6.  The text [send_to_openai] returns has no blank at either end,
    in chatbot.py and in geminiChatBot.py. *)
Theorem returned_text_is_stripped (user_message : str) (system_prompt : option str)
    (E : env OpenAI.request OpenAI.response) (w : world OpenAI.request)
    (G : env Gemini.request Gemini.response) (v : world Gemini.request)
    (self : AIChatbot) :
  (forall t st',
      OpenAI.send_to_openai user_message system_prompt E (self, w)
      = (Ret (Some t), st') ->
      lstrip t = t /\ rstrip t = t)
  /\ (forall t st',
        Gemini.send_to_openai user_message system_prompt G (self, v)
        = (Ret (Some t), st') ->
        lstrip t = t /\ rstrip t = t).
Proof.
  split; intros t st' H.
  - rewrite openai_send_eq in H. cbv zeta in H. apply settle_some in H.
    destruct (provider E _) as [[choices] | e]; [ | discriminate].
    cbn in H. destruct choices as [ | [content | ] rest]; try discriminate.
    injection H as <-. apply strip_is_stripped.
  - rewrite gemini_send_eq in H. cbv zeta in H. apply settle_some in H.
    destruct (provider G _) as [[[t0 | ] rp] | e]; try discriminate;
      cbn in H; injection H as <-; apply strip_is_stripped.
Qed.

Lemma returned_text_is_stripped_witness :
  lstrip (lit "Paris.") = lit "Paris." /\ rstrip (lit "Paris.") = lit "Paris.".
Proof.
  destruct (returned_text_is_stripped (lit "Capital of France?") None
              openai_env_ok (openai_world Missing)
              gemini_env_ok (gemini_world Missing) OpenAI.init)
    as [Ho _].
  eapply Ho. reflexivity.
Defined.

(** X7.  Every call of [send_to_openai] hands exactly one request to the
    client, whether it then fails or not, and leaves the current mode as
    it found it.  In chatbot.py the request carries the user message as
    given, after a system message when the system prompt is neither
    [None] nor empty; in geminiChatBot.py it carries the two texts
    stripped and joined by two newlines, or the stripped user message
    alone. *)
Theorem adapter_sends_one_request (user_message : str) (system_prompt : option str)
    (E : env OpenAI.request OpenAI.response) (w : world OpenAI.request)
    (G : env Gemini.request Gemini.response) (v : world Gemini.request)
    (self : AIChatbot) :
  (exists o self' w',
      OpenAI.send_to_openai user_message system_prompt E (self, w)
      = (Ret o, (self', w'))
      /\ current_mode self' = current_mode self
      /\ requests w'
         = requests w
           ++ [OpenAI.Request (lit "gpt-3.5-turbo")
                 (match system_prompt with
                  | Some (c :: p) => [OpenAI.Message (lit "system") (c :: p)]
                  | _ => []
                  end ++ [OpenAI.Message (lit "user") user_message])
                 500 (7 # 10)])
  /\ (exists o self' v',
        Gemini.send_to_openai user_message system_prompt G (self, v)
        = (Ret o, (self', v'))
        /\ current_mode self' = current_mode self
        /\ requests v'
           = requests v
             ++ [Gemini.Request (lit "gemini-2.5-flash")
                   (match system_prompt with
                    | Some (c :: p) =>
                        strip (c :: p) ++ newline ++ newline ++ strip user_message
                    | _ => strip user_message
                    end)
                   (Gemini.GenerateContentConfig (7 # 10) 500)]).
Proof.
  split.
  - rewrite openai_send_eq. cbv zeta.
    match goal with
    | |- context [settle ?a ?b ?c ?d (?s, ?x)] =>
        destruct (settle_cases a b c d s x) as (o & self' & w' & Heq & Hm & Hr & _)
    end.
    exists o, self', w'. repeat split; assumption.
  - rewrite gemini_send_eq. cbv zeta.
    match goal with
    | |- context [settle ?a ?b ?c ?d (?s, ?x)] =>
        destruct (settle_cases a b c d s x) as (o & self' & v' & Heq & Hm & Hr & _)
    end.
    exists o, self', v'. repeat split; assumption.
Qed.

(** X8.  [answer_faq question] sets the current mode to FAQ, also when
    the call then fails, and returns what [send_to_openai] returns for the
    FAQ system prompt and the question as it was given; the request the
    client receives carries that prompt and that question.  Stated for
    chatbot.py and for geminiChatBot.py. *)
Theorem answer_faq_calls_adapter (question : str)
    (E : env OpenAI.request OpenAI.response) (w : world OpenAI.request)
    (G : env Gemini.request Gemini.response) (v : world Gemini.request)
    (self : AIChatbot) :
  let said := newline ++ robot_face ++ lit " Processing your question..." in
  let started := Bot (conversation_history self) (Some (lit "FAQ")) in
  OpenAI.answer_faq question E (self, w)
  = OpenAI.send_to_openai question (Some Config.FAQ_SYSTEM_PROMPT) E
      (started, World (history_file w) (stdout w ++ [said]) (requests w))
  /\ Gemini.answer_faq question G (self, v)
     = Gemini.send_to_openai question (Some Config.FAQ_SYSTEM_PROMPT) G
         (started, World (history_file v) (stdout v ++ [said]) (requests v))
  /\ (exists o self' w',
        OpenAI.answer_faq question E (self, w) = (Ret o, (self', w'))
        /\ current_mode self' = Some (lit "FAQ")
        /\ requests w'
           = requests w
             ++ [OpenAI.Request (lit "gpt-3.5-turbo")
                   [OpenAI.Message (lit "system") Config.FAQ_SYSTEM_PROMPT;
                    OpenAI.Message (lit "user") question]
                   500 (7 # 10)])
  /\ (exists o self' v',
        Gemini.answer_faq question G (self, v) = (Ret o, (self', v'))
        /\ current_mode self' = Some (lit "FAQ")
        /\ requests v'
           = requests v
             ++ [Gemini.Request (lit "gemini-2.5-flash")
                   (strip Config.FAQ_SYSTEM_PROMPT ++ newline ++ newline
                    ++ strip question)
                   (Gemini.GenerateContentConfig (7 # 10) 500)]).
Proof.
  cbv zeta. repeat split.
  - destruct w as [f out reqs], self as [hist cm].
    unfold OpenAI.answer_faq.
    unfold bind at 1; unfold set_current_mode at 1.
    unfold bind at 1; unfold print at 1.
    rewrite bind_ret_r. reflexivity.
  - destruct v as [f out reqs], self as [hist cm].
    unfold Gemini.answer_faq.
    unfold bind at 1; unfold set_current_mode at 1.
    unfold bind at 1; unfold print at 1.
    rewrite bind_ret_r. reflexivity.
  - destruct (perform_cases _ _ _ _ openai_perform_eq (AnswerFaq question) E self w)
      as (o & self' & w' & Heq & Hmode & Hreq & _).
    exists o, self', w'. repeat split; assumption.
  - destruct (perform_cases _ _ _ _ gemini_perform_eq (AnswerFaq question) G self v)
      as (o & self' & v' & Heq & Hmode & Hreq & _).
    exists o, self', v'. repeat split; assumption.
Qed.

Lemma truncate_summarize_prompt (text : str) :
  ((len text <= 133)%nat ->
   truncate (summarize_prompt text) = summarize_instruction ++ text)
  /\ ((133 < len text)%nat ->
      truncate (summarize_prompt text)
      = summarize_instruction ++ slice_to 133 text ++ lit "...").
Proof.
  assert (Hp : summarize_prompt text = summarize_instruction ++ text).
  { unfold summarize_prompt, summarize_instruction. now rewrite <- !app_assoc. }
  assert (Hl : len (summarize_prompt text) = (67 + len text)%nat).
  { rewrite Hp. unfold len. rewrite length_app. reflexivity. }
  split; intros H.
  - rewrite truncate_fits by lia. exact Hp.
  - rewrite truncate_long by lia. rewrite Hp. unfold slice_to.
    rewrite firstn_app.
    change (List.length summarize_instruction) with 67%nat.
    change (200 - 67)%nat with 133%nat.
    rewrite firstn_all2 by (change (List.length summarize_instruction) with 67%nat; lia).
    now rewrite <- app_assoc.
Qed.

(** X9.  The entry [summarize_text] leaves shows in [user_input] the
    instruction sent with the text, not the text alone: the 67 characters
    of the instruction, then the text when it has at most 133 characters,
    else its first 133 characters and "...".  Stated for chatbot.py. *)
Theorem summarize_entry_keeps_instruction (text : str)
    (E : env OpenAI.request OpenAI.response) (self : AIChatbot)
    (w : world OpenAI.request) :
  exists o self' w',
    OpenAI.summarize_text text E (self, w) = (Ret o, (self', w'))
    /\ (conversation_history self' = conversation_history self
        \/ exists e,
             conversation_history self' = conversation_history self ++ [e]
             /\ ((len text <= 133)%nat ->
                 user_input e = summarize_instruction ++ text)
             /\ ((133 < len text)%nat ->
                 user_input e
                 = summarize_instruction ++ slice_to 133 text ++ lit "..."))
    /\ (forall t, o = Some t ->
                  conversation_history self' <> conversation_history self).
Proof.
  destruct (perform_cases _ _ _ _ openai_perform_eq (SummarizeText text) E self w)
    as (o & self' & w' & Heq & _ & _ & Hcase).
  exists o, self', w'. split; [exact Heq | ].
  destruct (openai_reply _) as [answer | e].
  - destruct Hcase as [Hh _]. split.
    + right. eexists. split; [exact Hh | ].
      cbn [saved_entry user_input message_of]. apply truncate_summarize_prompt.
    + intros t _. rewrite Hh. intros Habs.
      apply (f_equal (@List.length entry)) in Habs.
      rewrite length_app in Habs. cbn in Habs. lia.
  - destruct Hcase as (-> & Hh & _). split; [now left | ]. intros t Ht. discriminate.
Qed.

Lemma summarize_entry_keeps_instruction_witness :
  exists e,
    conversation_history
      (fst (snd (OpenAI.summarize_text (repeat 97 134) openai_env_ok
                   (OpenAI.init, openai_world Missing))))
    = [e]
    /\ user_input e = summarize_instruction ++ repeat 97 133 ++ lit "...".
Proof.
  destruct (summarize_entry_keeps_instruction (repeat 97 134) openai_env_ok
              OpenAI.init (openai_world Missing))
    as (o & self' & w' & Heq & Hsaved & Hsome).
  rewrite Heq. cbn [fst snd].
  assert (Ho : o = Some (lit "Paris.")).
  { apply (f_equal fst) in Heq. vm_compute in Heq. now injection Heq as <-. }
  destruct Hsaved as [Hsame | (e & Hh & _ & Hlong)].
  - elim (Hsome _ Ho). exact Hsame.
  - exists e. split; [exact Hh | ]. apply Hlong. vm_compute. lia.
Defined.

Lemma strip_strip (s : str) : strip (strip s) = strip s.
Proof.
  destruct (strip_is_stripped s) as [Hl Hr].
  unfold strip at 1. now rewrite Hl, Hr.
Qed.

(** X10.  In geminiChatBot.py blanks around the user message never reach
    the provider: a message and its strip give the same request and the
    same returned value.  The entry saved keeps the message as given. *)
Theorem gemini_ignores_outer_blanks (user_message : str) (system_prompt : option str)
    (G : env Gemini.request Gemini.response) (self : AIChatbot)
    (v : world Gemini.request) :
  let given := Gemini.send_to_openai user_message system_prompt G (self, v) in
  let stripped := Gemini.send_to_openai (strip user_message) system_prompt G (self, v) in
  fst given = fst stripped
  /\ requests (snd (snd given)) = requests (snd (snd stripped))
  /\ (forall t, fst given = Ret (Some t) ->
        exists e,
          conversation_history (fst (snd given)) = conversation_history self ++ [e]
          /\ user_input e = truncate user_message).
Proof.
  cbv zeta. rewrite !gemini_send_eq. cbv zeta.
  assert (Hr : gemini_request (strip user_message) system_prompt
               = gemini_request user_message system_prompt).
  { unfold gemini_request. now rewrite strip_strip. }
  rewrite Hr. rewrite !settle_eq.
  cbn [history_file stdout requests conversation_history current_mode].
  destruct (gemini_reply _) as [text | e]; cbv zeta.
  - destruct (loaded (history_file v)); try (repeat split; intros; discriminate).
    destruct (write G); cbn [fst snd requests conversation_history];
      repeat split; intros; eexists; split; reflexivity.
  - cbn [fst snd requests]. repeat split. intros; discriminate.
Qed.

Lemma gemini_ignores_outer_blanks_witness :
  exists e,
    conversation_history
      (fst (snd (Gemini.send_to_openai (lit "  hello ") None gemini_env_ok
                   (Gemini.init, gemini_world Missing))))
    = [e]
    /\ user_input e = lit "  hello ".
Proof.
  destruct (gemini_ignores_outer_blanks (lit "  hello ") None gemini_env_ok
              Gemini.init (gemini_world Missing))
    as (_ & _ & Hsaved).
  destruct (Hsaved (lit "Paris.") eq_refl) as (e & Hh & Hu).
  exists e. split; [exact Hh | exact Hu].
Defined.

(** ** Sessions: what only grows *)

Section SessionGrowth.
Context {request response : Type}.
Variable api : str.
Variable perform : operation -> M request response (option str).
Variable build : operation -> request.
Variable extract : outcome response -> outcome str.
Hypothesis perform_eq : forall op E self w,
  perform op E (self, w)
  = settle api (message_of op) (extract (provider E (build op))) E
      (Bot (conversation_history self) (Some (mode_of op)),
       World (history_file w) (stdout w ++ [banner op]) (requests w ++ [build op])).

Lemma session_grows script :
  forall self w rs self' w',
    run_session perform script (self, w) = (rs, (self', w')) ->
    (exists added,
        conversation_history self' = conversation_history self ++ added
        /\ (List.length added <= List.length script)%nat)
    /\ requests w' = requests w ++ map build (map fst script)
    /\ (exists said, stdout w' = stdout w ++ said).
Proof.
  induction script as [ | [op E] script IH]; intros self w rs self' w' Hrun.
  - cbn in Hrun. inversion Hrun; subst. cbn. rewrite !app_nil_r.
    repeat split; exists []; rewrite ?app_nil_r; auto.
  - cbn in Hrun.
    pose proof (perform_eq op E self w) as Heq. rewrite settle_eq in Heq.
    destruct (perform_cases _ _ _ _ perform_eq op E self w)
      as (o & self1 & w1 & Heq1 & _ & Hreq & Hcase).
    rewrite Heq1 in Hrun.
    destruct (run_session perform script (self1, w1)) as [rs1 [self2 w2]] eqn:Hrest.
    inversion Hrun; subst. clear Hrun.
    destruct (IH _ _ _ _ _ Hrest) as ((added & Hh & Hlen) & Hr & (said & Hs)).
    rewrite Heq1 in Heq.
    assert (Hout : exists said1, stdout w1 = stdout w ++ said1).
    { cbn [history_file stdout requests conversation_history current_mode] in Heq.
      destruct (extract (provider E (build op))) as [text | e]; cbv zeta in Heq.
      - destruct (loaded (history_file w)); try destruct (write E);
          injection Heq as _ _ ->; cbn [stdout];
          rewrite <- ?app_assoc; eexists; reflexivity.
      - injection Heq as _ _ ->. cbn [stdout]. rewrite <- app_assoc.
        eexists; reflexivity. }
    repeat split.
    + destruct (extract (provider E (build op))) as [text | e].
      * destruct Hcase as [Hh1 _]. rewrite Hh, Hh1, <- app_assoc.
        eexists. split; [reflexivity | ]. cbn. lia.
      * destruct Hcase as (_ & Hh1 & _). rewrite Hh, Hh1.
        exists added. split; [reflexivity | ]. cbn. lia.
    + rewrite Hr, Hreq, <- app_assoc. reflexivity.
    + destruct Hout as [said1 Hs1]. rewrite Hs, Hs1, <- app_assoc.
      eexists; reflexivity.
Qed.

End SessionGrowth.

(** X11.  Over a session, in either script, the session list only grows,
    by at most one entry per operation; every operation sends exactly
    one request, the one built from its message and its system prompt,
    whether it fails or not; and nothing that was printed is taken back. *)
Theorem session_only_grows
    (script : list (operation * env OpenAI.request OpenAI.response))
    (self : AIChatbot) (w : world OpenAI.request)
    (gscript : list (operation * env Gemini.request Gemini.response))
    (v : world Gemini.request) :
  let final := snd (run_session openai_perform script (self, w)) in
  let gfinal := snd (run_session gemini_perform gscript (self, v)) in
  ((exists added,
       conversation_history (fst final) = conversation_history self ++ added
       /\ (List.length added <= List.length script)%nat)
   /\ requests (snd final)
      = requests w
        ++ map (fun op => openai_request (message_of op) (Some (system_prompt_of op)))
             (map fst script)
   /\ (exists said, stdout (snd final) = stdout w ++ said))
  /\ ((exists added,
         conversation_history (fst gfinal) = conversation_history self ++ added
         /\ (List.length added <= List.length gscript)%nat)
      /\ requests (snd gfinal)
         = requests v
           ++ map (fun op => gemini_request (message_of op) (Some (system_prompt_of op)))
                (map fst gscript)
      /\ (exists said, stdout (snd gfinal) = stdout v ++ said)).
Proof.
  cbv zeta. split.
  - destruct (run_session openai_perform script (self, w)) as [rs [self' w']] eqn:Hrun.
    exact (@session_grows _ _ _ _ _ _ openai_perform_eq script self w rs self' w' Hrun).
  - destruct (run_session gemini_perform gscript (self, v)) as [rs [self' v']] eqn:Hrun.
    exact (@session_grows _ _ _ _ _ _ gemini_perform_eq gscript self v rs self' v' Hrun).
Qed.

(** ** The console: history view, response display, menu choice *)

Section DisplayFacts.
Context {request response : Type}.
Implicit Types (E : env request response) (w : world request) (self : AIChatbot).

Lemma view_entries_eq (entries : list entry) :
  forall i E self w,
    view_entries i entries E (self, w)
    = (Ret tt,
       (self, World (history_file w) (stdout w ++ entry_blocks i entries) (requests w))).
Proof.
  induction entries as [ | e entries IH]; intros i E self w.
  - cbn. rewrite app_nil_r. now destruct w.
  - cbn [view_entries entry_blocks].
    unfold bind at 1; unfold print at 1.
    unfold bind at 1; unfold print at 1.
    unfold bind at 1; unfold print at 1.
    unfold bind at 1; unfold print at 1.
    rewrite IH. cbn [history_file stdout requests].
    unfold entry_block. now rewrite <- !app_assoc.
Qed.

Lemma entry_blocks_length (entries : list entry) :
  forall i, List.length (entry_blocks i entries) = (4 * List.length entries)%nat.
Proof.
  induction entries as [ | e entries IH]; intros i; [reflexivity | ].
  cbn [entry_blocks]. rewrite length_app, IH. cbn [List.length entry_block]. lia.
Qed.

Lemma entry_blocks_nth (entries : list entry) :
  forall i k e j,
    nth_error entries k = Some e ->
    (j < 4)%nat ->
    nth_error (entry_blocks i entries) (4 * k + j)
    = nth_error (entry_block (i + k) e) j.
Proof.
  induction entries as [ | e0 entries IH]; intros i k e j Hk Hj.
  - destruct k; discriminate.
  - destruct k as [ | k]; cbn [nth_error] in Hk.
    + injection Hk as ->. cbn [entry_blocks]. rewrite Nat.add_0_r.
      rewrite nth_error_app1 by (cbn; lia). reflexivity.
    + cbn [entry_blocks].
      rewrite nth_error_app2 by (cbn [List.length entry_block]; lia).
      cbn [List.length entry_block].
      replace (4 * S k + j - 4)%nat with (4 * k + j)%nat by lia.
      rewrite (IH (S i) k e j Hk Hj). f_equal. f_equal. lia.
Qed.

End DisplayFacts.

Lemma view_history_eq {request response : Type}
    (E : env request response) (self : AIChatbot) (w : world request) :
  view_history E (self, w)
  = (Ret tt,
     (self,
      World (history_file w) (stdout w ++ history_lines (conversation_history self))
            (requests w))).
Proof.
  destruct self as [hist cm], w as [f out reqs].
  unfold view_history, bind at 1, get_conversation_history.
  cbn [conversation_history].
  destruct hist as [ | e0 hist]; [reflexivity | ].
  unfold bind at 1; unfold print at 1.
  unfold bind at 1; unfold print at 1.
  unfold bind at 1; unfold print at 1.
  rewrite view_entries_eq. cbn [history_file stdout requests history_lines].
  now rewrite <- !app_assoc.
Qed.

(** X12.  On a session list whose texts the output stream can encode (no
    surrogate code point in a timestamp, mode, [user_input] or
    [ai_response]), [view_history] returns, having changed neither the
    chatbot object, nor the history file, nor the requests.  On an empty
    session list it prints the one line that says so; otherwise it prints
    three heading lines and four lines per entry, in the order of the
    list: the entry at position k, numbered k+1, with its timestamp and
    mode, then its [user_input], then its [ai_response]. *)
Theorem view_history_lists_session {request response : Type}
    (E : env request response) (self : AIChatbot) (w : world request) :
  forallb encodable_entry (conversation_history self) = true ->
  exists said,
    view_history E (self, w)
    = (Ret tt, (self, World (history_file w) (stdout w ++ said) (requests w)))
    /\ (conversation_history self = [] ->
        said = [newline ++ mailbox
                ++ lit " No conversation history yet in this session."])
    /\ (conversation_history self <> [] ->
        List.length said = (3 + 4 * List.length (conversation_history self))%nat
        /\ forall k e,
             nth_error (conversation_history self) k = Some e ->
             nth_error said (3 + 4 * k)
             = Some (newline ++ lit "[" ++ str_of_nat (S k) ++ lit "] " ++ timestamp e
                     ++ lit " - Mode: " ++ format_mode (mode e))
             /\ nth_error said (4 + 4 * k) = Some (lit "User: " ++ user_input e)
             /\ nth_error said (5 + 4 * k) = Some (lit "AI: " ++ ai_response e)).
Proof.
  intros _. exists (history_lines (conversation_history self)).
  split; [apply view_history_eq | ].
  destruct (conversation_history self) as [ | e0 hist].
  - split; [reflexivity | congruence].
  - split; [discriminate | intros _]. cbn [history_lines].
    split.
    + rewrite length_app, entry_blocks_length. reflexivity.
    + intros k e Hk.
      pose proof (@entry_blocks_nth (e0 :: hist) 1 k e) as Hn.
      repeat split.
      * rewrite nth_error_app2 by (cbn [List.length]; lia).
        cbn [List.length].
        replace (3 + 4 * k - 3)%nat with (4 * k + 0)%nat by lia.
        etransitivity; [apply (Hn 0%nat Hk); lia | reflexivity].
      * rewrite nth_error_app2 by (cbn [List.length]; lia).
        cbn [List.length].
        replace (4 + 4 * k - 3)%nat with (4 * k + 1)%nat by lia.
        etransitivity; [apply (Hn 1%nat Hk); lia | reflexivity].
      * rewrite nth_error_app2 by (cbn [List.length]; lia).
        cbn [List.length].
        replace (5 + 4 * k - 3)%nat with (4 * k + 2)%nat by lia.
        etransitivity; [apply (Hn 2%nat Hk); lia | reflexivity].
Qed.

Lemma view_history_lists_session_witness :
  exists said,
    snd (snd (view_history openai_env_ok
                (Bot [Entry sample_clock (Some (lit "FAQ")) (lit "hi") (lit "hello")] None,
                 openai_world Missing)))
    = World Missing said []
    /\ List.length said = 7%nat
    /\ nth_error said 4 = Some (lit "User: hi").
Proof.
  destruct (view_history_lists_session openai_env_ok
              (Bot [Entry sample_clock (Some (lit "FAQ")) (lit "hi") (lit "hello")] None)
              (openai_world Missing) eq_refl)
    as (said & Heq & _ & Hfull).
  exists said. rewrite Heq. split; [reflexivity | ].
  destruct Hfull as [Hlen Hnth]; [discriminate | ].
  split; [exact Hlen | ].
  destruct (Hnth 0%nat _ eq_refl) as (_ & Hu & _). exact Hu.
Defined.

(** X13.  A reply of the provider that is blank after stripping is saved
    as an exchange and returned as the empty text, and [format_response]
    then shows the line it shows for a failed call.  Stated for
    chatbot.py. *)
Theorem blank_reply_saved_but_shown_as_failure (op : operation) (content : str)
    (more : list (option str))
    (E : env OpenAI.request OpenAI.response) (self : AIChatbot)
    (w : world OpenAI.request) :
  provider E (openai_request (message_of op) (Some (system_prompt_of op)))
  = Ret (OpenAI.Response (Some content :: more)) ->
  strip content = [] ->
  is_array (loaded (history_file w)) = true ->
  exists self' w',
    openai_perform op E (self, w) = (Ret (Some []), (self', w'))
    /\ conversation_history self'
       = conversation_history self
         ++ [Entry (now E) (Some (mode_of op)) (truncate (message_of op)) []]
    /\ format_response (Some []) E (self', w')
       = (Ret tt,
          (self',
           World (history_file w')
             (stdout w'
              ++ [newline ++ cross_mark
                  ++ lit " Failed to get a response. Please try again."])
             (requests w')))
    /\ format_response (Some []) E (self', w') = format_response None E (self', w').
Proof.
  intros Hp Hs Ha. rewrite openai_perform_eq. cbv zeta. rewrite Hp.
  cbn [openai_reply OpenAI.choices]. rewrite Hs. rewrite settle_eq. cbv zeta.
  cbn [history_file stdout requests conversation_history current_mode].
  destruct (is_array_items _ Ha) as [items ->].
  destruct (write E); do 2 eexists; (split; [reflexivity | ]);
    repeat split.
Qed.

Lemma blank_reply_saved_but_shown_as_failure_witness :
  exists self' w',
    OpenAI.answer_faq (lit "Anyone?")
      (Env sample_clock (openai_answers (lit "   ")) Written)
      (OpenAI.init, openai_world Missing)
    = (Ret (Some []), (self', w'))
    /\ List.length (conversation_history self') = 1%nat.
Proof.
  destruct (@blank_reply_saved_but_shown_as_failure (AnswerFaq (lit "Anyone?"))
              (lit "   ") [] (Env sample_clock (openai_answers (lit "   ")) Written)
              OpenAI.init (openai_world Missing) eq_refl eq_refl eq_refl)
    as (self' & w' & Heq & Hh & _).
  exists self', w'. split; [exact Heq | ]. rewrite Hh. reflexivity.
Defined.

Lemma is_choice_values (choice : str) :
  is_choice choice = true ->
  In choice [lit "1"; lit "2"; lit "3"; lit "4"].
Proof.
  unfold is_choice. intros H. apply existsb_exists in H.
  destruct H as (x & Hin & Heq). apply str_eqb_eq in Heq. now subst x.
Qed.

Lemma read_choice_result (pending : list str) :
  forall out r c',
    read_choice pending out = (Ret r, c') ->
    exists bad good,
      pending = bad ++ good :: stdin c'
      /\ strip good = r
      /\ is_choice r = true
      /\ Forall rejected bad
      /\ printed c' = out ++ reprompts bad ++ [choice_prompt].
Proof.
  induction pending as [ | line pending IH]; intros out r c' H.
  - discriminate.
  - cbn [read_choice] in H. destruct (is_choice (strip line)) eqn:Hc.
    + injection H as <- <-. exists [], line. cbn. repeat split; auto.
    + destruct (IH _ _ _ H) as (bad & good & -> & Hg & Hr & Hbad & Hout).
      exists (line :: bad), good.
      split; [reflexivity | ]. split; [exact Hg | ]. split; [exact Hr | ].
      split; [constructor; assumption | ].
      rewrite Hout. cbn [reprompts flat_map app]. now rewrite <- !app_assoc.
Qed.

Lemma read_choice_rejects (pending : list str) :
  forall out,
    Forall rejected pending ->
    read_choice pending out
    = (Raise EOFError, Console [] (out ++ reprompts pending ++ [choice_prompt])).
Proof.
  induction pending as [ | line pending IH]; intros out H.
  - reflexivity.
  - inversion H as [ | l ls Hl Hrest ]; subst. cbn [read_choice].
    unfold rejected in Hl. rewrite Hl. rewrite IH by assumption.
    cbn [reprompts flat_map app]. now rewrite <- !app_assoc.
Qed.

(** X14.  What [get_user_choice] returns is one of "1", "2", "3", "4":
    the strip of the first line of the input that is one of them after
    stripping.  Every line before it was answered with the message for an
    invalid choice and a new prompt, and the lines after it are left
    unread. *)
Theorem get_user_choice_returns_valid (c c' : console) (r : str) :
  get_user_choice c = (Ret r, c') ->
  In r [lit "1"; lit "2"; lit "3"; lit "4"]
  /\ exists bad good,
       stdin c = bad ++ good :: stdin c'
       /\ strip good = r
       /\ Forall rejected bad
       /\ printed c'
          = printed c
            ++ flat_map (fun _ => [choice_prompt; invalid_choice]) bad
            ++ [choice_prompt].
Proof.
  unfold get_user_choice. intros H.
  destruct (read_choice_result _ _ H) as (bad & good & Hin & Hg & Hr & Hbad & Hout).
  split; [now apply is_choice_values | ].
  exists bad, good. repeat split; assumption.
Qed.

Lemma get_user_choice_returns_valid_witness :
  exists bad good,
    [lit "7"; lit "yes"; lit " 2 "; lit "later"] = bad ++ good :: [lit "later"]
    /\ strip good = lit "2"
    /\ Forall rejected bad.
Proof.
  destruct (@get_user_choice_returns_valid
              (Console [lit "7"; lit "yes"; lit " 2 "; lit "later"] [])
              (Console [lit "later"]
                 [choice_prompt; invalid_choice; choice_prompt; invalid_choice;
                  choice_prompt])
              (lit "2") eq_refl)
    as (_ & bad & good & Hin & Hg & Hbad & _).
  exists bad, good. repeat split; assumption.
Defined.

(** X15.  An input none of whose lines is a valid choice never gets past
    [get_user_choice]: each line is answered with the message for an
    invalid choice, and when the lines run out [input] raises
    [EOFError], which the function does not catch. *)
Theorem get_user_choice_never_accepts_invalid (c : console) :
  Forall rejected (stdin c) ->
  get_user_choice c
  = (Raise EOFError,
     Console []
       (printed c
        ++ flat_map (fun _ => [choice_prompt; invalid_choice]) (stdin c)
        ++ [choice_prompt])).
Proof. intros H. unfold get_user_choice. now apply read_choice_rejects. Qed.

Lemma get_user_choice_never_accepts_invalid_witness :
  fst (get_user_choice (Console [lit "5"; lit ""; lit "one"] [])) = Raise EOFError.
Proof.
  rewrite (@get_user_choice_never_accepts_invalid
             (Console [lit "5"; lit ""; lit "one"] [])).
  - reflexivity.
  - repeat constructor.
Defined.

(** ** The program: [main] *)

Lemma read_lines_ends (upper_ext : N -> str) (pending : list str) :
  forall lines count,
    match read_lines upper_ext pending lines count with
    | (Ret _, rest) => (List.length rest < List.length pending)%nat
    | (Raise e, rest) => e = EOFError /\ rest = []
    end.
Proof.
  induction pending as [ | line pending IH]; intros lines count.
  - cbn. auto.
  - cbn [read_lines].
    destruct (str_eqb (upper upper_ext line) (lit "CANCEL")); [cbn; lia | ].
    destruct (str_eqb line (lit "")).
    + destruct (2 <=? S count)%nat; [cbn; lia | ].
      specialize (IH lines (S count)).
      destruct (read_lines upper_ext pending lines (S count)) as [[o | e] rest];
        [cbn; lia | exact IH].
    + specialize (IH (lines ++ [line]) 0%nat).
      destruct (read_lines upper_ext pending (lines ++ [line]) 0) as [[o | e] rest];
        [cbn; lia | exact IH].
Qed.

Lemma read_choice_ends (pending : list str) :
  forall out,
    match read_choice pending out with
    | (Ret _, c) => (List.length (stdin c) < List.length pending)%nat
    | (Raise e, c) => e = EOFError /\ stdin c = []
    end.
Proof.
  induction pending as [ | line pending IH]; intros out.
  - cbn. auto.
  - cbn [read_choice]. destruct (is_choice (strip line)); [cbn; lia | ].
    specialize (IH ((out ++ [choice_prompt]) ++ [invalid_choice])).
    destruct (read_choice pending _) as [[o | e] c]; [cbn; lia | exact IH].
Qed.

Lemma read_choice_accepts (bad : list str) (good : str) (rest : list str) :
  forall out,
    Forall rejected bad ->
    is_choice (strip good) = true ->
    read_choice (bad ++ good :: rest) out
    = (Ret (strip good), Console rest (out ++ reprompts bad ++ [choice_prompt])).
Proof.
  induction bad as [ | line bad IH]; intros out Hbad Hgood.
  - cbn [app read_choice reprompts flat_map]. now rewrite Hgood.
  - inversion Hbad as [ | l ls Hl Hrest ]; subst. unfold rejected in Hl.
    cbn [app read_choice]. rewrite Hl, IH by assumption.
    cbn [reprompts flat_map app]. now rewrite <- !app_assoc.
Qed.

Lemma format_response_eq {request response : Type} (r : option str)
    (E : env request response) (self : AIChatbot) (w : world request) :
  exists said,
    format_response r E (self, w)
    = (Ret tt, (self, World (history_file w) (stdout w ++ said) (requests w))).
Proof.
  destruct w as [f out reqs].
  destruct r as [[ | c t] | ]; cbn [format_response truthy].
  - eexists. reflexivity.
  - unfold bind, print. cbn [history_file stdout requests].
    rewrite <- !app_assoc. eexists. reflexivity.
  - eexists. reflexivity.
Qed.

Lemma well_asked_message (op : operation) : well_asked op -> message_of op <> [].
Proof.
  destruct op as [question | text]; intros [Hne _]; [exact Hne | discriminate].
Qed.

Section MainFacts.
Variable upper_ext : N -> str.
Variable oracle : nat -> env OpenAI.request OpenAI.response.
Variable f0 : file_state.
Variable reqs0 : list OpenAI.request.

Local Open Scope app_scope.
Local Abbreviation I := (main_inv f0 reqs0).

Lemma triple_bind {A B : Type} (pre : program -> Prop) (m : App.P A)
    (mid : A -> program -> Prop) (k : A -> App.P B) (post : B -> program -> Prop) :
  triple I pre m mid ->
  (forall a, triple I (mid a) (k a) post) ->
  triple I pre (App.and_then m k) post.
Proof.
  intros Hm Hk s HI Hpre. unfold App.and_then.
  specialize (Hm s HI Hpre). destruct (m s) as [[a | e | code | ] s1]; cbn in Hm.
  - destruct Hm as [HI1 Hmid]. exact (Hk a s1 HI1 Hmid).
  - exact Hm.
  - exact Hm.
  - exact Hm.
Qed.

Lemma triple_weaken {A : Type} (pre pre' : program -> Prop) (m : App.P A)
    (post post' : A -> program -> Prop) :
  triple I pre' m post' ->
  (forall s, pre s -> pre' s) ->
  (forall a s, post' a s -> post a s) ->
  triple I pre m post.
Proof.
  intros Hm Hp Hq s HI Hpre. specialize (Hm s HI (Hp s Hpre)).
  destruct Hm as [HI1 Hend]. split; [exact HI1 | ].
  destruct (fst (m s)); auto.
Qed.

Lemma triple_done {A : Type} (pre : program -> Prop) (a : A)
    (post : A -> program -> Prop) :
  (forall s, pre s -> post a s) -> triple I pre (App.done a) post.
Proof. intros H s HI Hpre. cbn. auto. Qed.

(** The invariant does not look at the keyboard or at what was printed. *)
Lemma inv_frame (k k' : list str) (b : AIChatbot) (f : file_state)
    (out out' : list str) (reqs : list OpenAI.request) (n : nat) :
  I (Program k b (World f out reqs) n) -> I (Program k' b (World f out' reqs) n).
Proof. intros H. exact H. Qed.

Lemma triple_echo (n : nat) (lines : list str) :
  triple I (at_most n) (App.echo lines) (fun _ => at_most n).
Proof.
  intros [k b [f out reqs] c] HI Hpre. cbn. split; [ | exact Hpre].
  exact (inv_frame _ _ HI).
Qed.

Lemma triple_menu (n : nat) :
  triple I (at_most n)
    (fun s => (Done tt, Program (keyboard s) (chatbot s) (display_menu (outside s))
                          (served s)))
    (fun _ => at_most n).
Proof.
  intros [k b [f out reqs] c] HI Hpre. cbn. split; [ | exact Hpre].
  exact (inv_frame _ _ HI).
Qed.

Lemma triple_input (n : nat) (prompt : str) :
  triple I (at_most n) (App.input_ prompt) (fun _ => at_most n).
Proof.
  intros [k b [f out reqs] c] HI Hpre. unfold App.input_. cbn [keyboard].
  destruct k as [ | line rest]; cbn.
  - split; [exact (inv_frame _ _ HI) | auto].
  - split; [exact (inv_frame _ _ HI) | ]. unfold at_most in *. cbn in *. lia.
Qed.

Lemma triple_choice (n : nat) :
  triple I (at_most n) (App.on_console get_user_choice)
    (fun _ s => (S (List.length (keyboard s)) <= n)%nat).
Proof.
  intros [k b [f out reqs] c] HI Hpre. unfold App.on_console, get_user_choice.
  cbn [keyboard outside stdout stdin printed].
  pose proof (read_choice_ends k out) as Hend.
  destruct (read_choice k out) as [[choice | e] [rest out']];
    cbn [fst snd keyboard stdin] in *.
  - split; [exact (inv_frame _ _ HI) | ]. unfold at_most in Hpre. cbn in Hpre. lia.
  - split; [exact (inv_frame _ _ HI) | exact Hend].
Qed.

Lemma triple_collect (n : nat) (prompt : str) :
  triple I (at_most n) (App.on_console (get_multiline_input upper_ext prompt))
    (fun text s =>
       at_most n s /\ forall t, text = Some t -> strip t = t).
Proof.
  intros [k b [f out reqs] c] HI Hpre. unfold App.on_console, get_multiline_input.
  cbn [keyboard outside stdout stdin printed].
  pose proof (read_lines_ends upper_ext k [] 0) as Hend.
  destruct (read_lines upper_ext k [] 0) as [[text | e] rest] eqn:Hr;
    cbn [fst snd keyboard stdin] in *.
  - split; [exact (inv_frame _ _ HI) | ]. split.
    + unfold at_most in *. cbn in *. lia.
    + intros t ->. destruct (read_lines_result _ _ _ _ Hr) as (consumed & _ & ->).
      apply strip_strip.
  - split; [exact (inv_frame _ _ HI) | exact Hend].
Qed.

Lemma triple_format (n : nat) (r : option str) :
  triple I (at_most n) (App.method oracle (format_response r)) (fun _ => at_most n).
Proof.
  intros [k b [f out reqs] c] HI Hpre. unfold App.method.
  cbn [keyboard outside chatbot served].
  destruct (format_response_eq r (oracle c) b (World f out reqs)) as [said ->].
  cbn. split; [exact (inv_frame _ _ HI) | exact Hpre].
Qed.

Lemma triple_view (n : nat) :
  triple I (at_most n) (App.method oracle view_history) (fun _ => at_most n).
Proof.
  intros [k b [f out reqs] c] HI Hpre. unfold App.method.
  cbn [keyboard outside chatbot served].
  rewrite view_history_eq.
  cbn. split; [exact (inv_frame _ _ HI) | exact Hpre].
Qed.

Lemma triple_operate (n : nat) (op : operation) :
  well_asked op ->
  triple I (at_most n) (App.operate oracle (openai_perform op)) (fun _ => at_most n).
Proof.
  intros Hop [k b [f out reqs] c] [Hsaved (added & Hreq & Hsent & Hlen & Hfile)] Hpre.
  unfold App.operate. cbn [keyboard outside chatbot served] in *.
  destruct (perform_cases _ _ _ _ openai_perform_eq op (oracle c) b (World f out reqs))
    as (o & self' & w' & Heq & _ & Hreq' & Hcase).
  rewrite Heq. cbn [fst snd]. split; [ | exact Hpre].
  split.
  - cbn [chatbot].
    destruct (openai_reply _) as [answer | e].
    + destruct Hcase as [Hh _]. rewrite Hh. apply Forall_app. split; [exact Hsaved | ].
      constructor; [ | constructor]. exists op, (now (oracle c)), answer.
      split; [exact Hop | reflexivity].
    + destruct Hcase as (_ & Hh & _). now rewrite Hh.
  - cbn [outside served requests] in *.
    exists (added ++ [openai_request (message_of op) (Some (system_prompt_of op))]).
    split; [rewrite Hreq', Hreq, <- app_assoc; reflexivity | ].
    split; [apply Forall_app; split; [exact Hsent | ];
            constructor; [now exists op | constructor] | ].
    split; [rewrite length_app; cbn; lia | ].
    intros Habs. destruct added; discriminate.
Qed.

(** Whatever is typed, the loop returns or ends on the [EOFError] of an
    exhausted keyboard, and keeps the invariant. *)
Lemma main_loop_safe (fuel : nat) :
  forall n, (n < fuel)%nat ->
    triple I (at_most n) (App.main_loop upper_ext oracle fuel) (fun _ _ => True).
Proof.
  induction fuel as [ | fuel IH]; intros n Hn; [lia | ].
  cbn [App.main_loop].
  eapply triple_bind; [apply triple_menu | intros ?].
  eapply triple_bind; [apply triple_choice | intros choice].
  destruct n as [ | n].
  { intros s _ Habs. lia. }
  assert (Hlt : (n < fuel)%nat) by lia.
  apply triple_weaken with (pre' := at_most n) (post' := fun _ _ => True);
    [ | unfold at_most; intros s Hs; lia | auto].
  eapply triple_bind with (mid := fun _ => at_most n).
  - destruct (str_eqb choice (lit "1")).
    { eapply triple_bind; [apply triple_echo | intros ?].
      eapply triple_bind; [apply triple_input | intros line].
      eapply triple_bind with (mid := fun _ => at_most n);
        [ | intros ?; apply triple_done; auto].
      destruct (strip line) as [ | c q] eqn:Hq; cbn [truthy].
      - apply triple_echo.
      - eapply triple_bind with (mid := fun _ => at_most n);
          [ | intros r; apply triple_format].
        apply (@triple_operate n (AnswerFaq (c :: q))).
        split; [discriminate | ]. cbn [subject]. rewrite <- Hq. apply strip_strip. }
    destruct (str_eqb choice (lit "2")).
    { eapply triple_bind; [apply triple_echo | intros ?].
      eapply triple_bind; [apply triple_collect | intros text].
      eapply triple_bind with (mid := fun _ => at_most n);
        [ | intros ?; apply triple_done; auto].
      destruct text as [[ | c t] | ]; cbn [truthy].
      - eapply triple_weaken; [apply (@triple_echo n) | intros s [Hs _]; exact Hs | auto].
      - intros s HI [Hs Hstrip].
        assert (Ht : triple I (at_most n)
                       (App.and_then
                          (App.operate oracle (OpenAI.summarize_text (c :: t)))
                          (fun response => App.method oracle (format_response response)))
                       (fun _ => at_most n)).
        { eapply triple_bind with (mid := fun _ => at_most n);
            [ | intros r; apply triple_format].
          apply (@triple_operate n (SummarizeText (c :: t))).
          split; [discriminate | ]. cbn [subject]. now apply Hstrip. }
        exact (Ht s HI Hs).
      - eapply triple_weaken; [apply (@triple_echo n) | intros s [Hs _]; exact Hs | auto]. }
    destruct (str_eqb choice (lit "3")).
    { eapply triple_bind; [apply triple_view | intros ?]. apply triple_done; auto. }
    destruct (str_eqb choice (lit "4")).
    { eapply triple_bind; [apply triple_echo | intros ?]. apply triple_done; auto. }
    apply triple_done; auto.
  - intros [ | ].
    + apply triple_done; auto.
    + eapply triple_bind with (mid := fun _ => at_most n); [ | intros ?; now apply IH].
      destruct (existsb _ _).
      * eapply triple_bind; [apply triple_input | intros ?]. apply triple_done; auto.
      * apply triple_done; auto.
Qed.

End MainFacts.

(** X16.  Without an API key ([None] or the empty string) [main] of
    chatbot.py prints the welcome, the error and the four lines of
    guidance, and calls [sys.exit(1)]: no menu is shown, nothing is read
    from the keyboard, no request is sent and the history file is not
    touched. *)
Theorem main_without_key_exits (upper_ext : N -> str)
    (oracle : nat -> env OpenAI.request OpenAI.response)
    (api_key : option str) (typed : list str) (w : world OpenAI.request) :
  truthy api_key = false ->
  App.main upper_ext oracle api_key typed w
  = Run (SystemExit 1) typed None
      (World (history_file w)
         (stdout (display_welcome w)
          ++ [ newline ++ cross_mark
               ++ lit " OpenAI API key not found! Please set OPENAI_API_KEY "
               ++ lit "environment variable.";
               newline ++ lit "To set your API key:";
               lit "  Windows: set OPENAI_API_KEY=your_api_key_here";
               lit "  Mac/Linux: export OPENAI_API_KEY=your_api_key_here";
               newline ++ lit "Or add it to a .env file in the project directory." ])
         (requests w)).
Proof.
  intros H. unfold App.main, App.__init__. rewrite H. reflexivity.
Qed.

Lemma main_without_key_exits_witness :
  ended (App.main (fun c => [c]) (fun _ => openai_env_ok) (Some (lit ""))
           [lit "1"; lit "hello"] (openai_world Missing))
  = SystemExit 1.
Proof.
  rewrite (@main_without_key_exits (fun c => [c]) (fun _ => openai_env_ok)
             (Some (lit "")) [lit "1"; lit "hello"] (openai_world Missing) eq_refl).
  reflexivity.
Defined.

Lemma main_not_started (upper_ext : N -> str)
    (oracle : nat -> env OpenAI.request OpenAI.response)
    (api_key : option str) (typed : list str) (w : world OpenAI.request) :
  truthy api_key = false ->
  ended (App.main upper_ext oracle api_key typed w) = SystemExit 1
  /\ chatbot_left (App.main upper_ext oracle api_key typed w) = None.
Proof.
  intros H. unfold App.main, App.__init__. rewrite H. split; reflexivity.
Qed.

Lemma main_started (upper_ext : N -> str)
    (oracle : nat -> env OpenAI.request OpenAI.response)
    (api_key : option str) (typed : list str) (w : world OpenAI.request) :
  truthy api_key = true ->
  exists s0,
    main_inv (history_file w) (requests w) s0
    /\ at_most (List.length typed) s0
    /\ App.main upper_ext oracle api_key typed w
       = let '(r, s) := App.main_loop upper_ext oracle (S (List.length typed)) s0 in
         Run r (keyboard s) (Some (chatbot s)) (outside s).
Proof.
  intros H. unfold App.main, App.__init__. rewrite H. cbn [negb].
  eexists. split; [ | split; [ | reflexivity]].
  - split; [constructor | ]. exists []. cbn. rewrite app_nil_r. auto.
  - unfold at_most. cbn. lia.
Qed.



(** X18.  Every operation [main] of chatbot.py starts is on a question or
    a text that is not empty and has no blank at either end: so are all
    the requests the run sent and all the entries of its session list;
    and a run that sent no request leaves the history file as it found
    it. *)
Theorem main_operations_are_well_asked (upper_ext : N -> str)
    (oracle : nat -> env OpenAI.request OpenAI.response)
    (api_key : option str) (typed : list str) (w : world OpenAI.request)
    (b : AIChatbot) :
  chatbot_left (App.main upper_ext oracle api_key typed w) = Some b ->
  Forall saved_by_main (conversation_history b)
  /\ exists added,
       requests (world_left (App.main upper_ext oracle api_key typed w))
       = requests w ++ added
       /\ Forall sent_by_main added
       /\ (added = [] ->
           history_file (world_left (App.main upper_ext oracle api_key typed w))
           = history_file w).
Proof.
  destruct (truthy api_key) eqn:Hkey.
  - destruct (main_started upper_ext oracle api_key typed w Hkey)
      as (s0 & HI & Hn & ->).
    pose proof (@main_loop_safe upper_ext oracle _ _ (S (List.length typed))
                  (List.length typed) (Nat.lt_succ_diag_r _) s0 HI Hn) as [Hinv _].
    destruct (App.main_loop upper_ext oracle (S (List.length typed)) s0) as [r s].
    cbn [chatbot_left world_left snd] in *. intros Hb. injection Hb as <-.
    destruct Hinv as [Hsaved (added & Hreq & Hsent & _ & Hfile)].
    split; [exact Hsaved | ]. exists added. auto.
  - destruct (main_not_started upper_ext oracle api_key typed w Hkey) as [_ ->].
    discriminate.
Qed.

Lemma main_operations_are_well_asked_witness :
  let r := App.main (fun c => [c]) (fun _ => openai_env_ok) (Some (lit "sk"))
             [lit "1"; lit " What? "; lit ""; lit "4"] (openai_world Missing) in
  let b := Bot [Entry sample_clock (Some (lit "FAQ")) (lit "What?") (lit "Paris.")]
               (Some (lit "FAQ")) in
  chatbot_left r = Some b /\ Forall saved_by_main (conversation_history b).
Proof.
  cbv zeta.
  assert (H : chatbot_left
                (App.main (fun c => [c]) (fun _ => openai_env_ok) (Some (lit "sk"))
                   [lit "1"; lit " What? "; lit ""; lit "4"] (openai_world Missing))
              = Some (Bot [Entry sample_clock (Some (lit "FAQ")) (lit "What?")
                             (lit "Paris.")]
                          (Some (lit "FAQ"))))
    by (vm_compute; reflexivity).
  split; [exact H | ].
  exact (proj1 (main_operations_are_well_asked _ _ _ _ _ H)).
Defined.

(** One step of the program's sequencing. *)
Ltac app_step := unfold App.and_then at 1; cbn beta iota.

(** The start of an iteration: the menu, then the choice, read past the
    lines that are rejected. *)
Ltac enter_menu Hbad Hgood :=
  cbn [App.main_loop];
  app_step; app_step; unfold App.on_console at 1;
  cbn [keyboard outside stdout chatbot served];
  unfold get_user_choice at 1; cbn [stdin printed];
  rewrite read_choice_accepts; [ | exact Hbad | rewrite Hgood; reflexivity];
  cbn beta iota; cbn [stdin printed]; rewrite Hgood.

Lemma main_loop_quits (upper_ext : N -> str)
    (oracle : nat -> env OpenAI.request OpenAI.response)
    (fuel : nat) (bad : list str) (four : str) (rest : list str)
    (b : AIChatbot) (w : world OpenAI.request) (k : nat) :
  Forall rejected bad ->
  strip four = lit "4" ->
  exists said,
    App.main_loop upper_ext oracle (S fuel) (Program (bad ++ four :: rest) b w k)
    = (Done tt, Program rest b (say said w) k).
Proof.
  intros Hbad Hfour. enter_menu Hbad Hfour.
  change (str_eqb (lit "4") (lit "1")) with false.
  change (str_eqb (lit "4") (lit "2")) with false.
  change (str_eqb (lit "4") (lit "3")) with false.
  change (str_eqb (lit "4") (lit "4")) with true.
  cbn beta iota. app_step. app_step. unfold App.echo at 1, App.done.
  cbn [keyboard outside stdout chatbot served]. cbn beta iota.
  unfold display_menu, say. cbn [history_file stdout requests].
  rewrite <- !app_assoc. eexists. reflexivity.
Qed.

(** X19.  With an API key, a keyboard that gives any number of invalid
    choices and then 4 makes [main] of chatbot.py return: the lines
    after the 4 are left unread, the session list is empty, no request
    was sent and the history file is as it was. *)
Theorem main_quits_on_four (upper_ext : N -> str)
    (oracle : nat -> env OpenAI.request OpenAI.response)
    (api_key : option str) (bad : list str) (four : str) (rest : list str)
    (w : world OpenAI.request) :
  truthy api_key = true ->
  Forall rejected bad ->
  strip four = lit "4" ->
  let r := App.main upper_ext oracle api_key (bad ++ four :: rest) w in
  ended r = Done tt
  /\ keyboard_left r = rest
  /\ chatbot_left r = Some (Bot [] None)
  /\ history_file (world_left r) = history_file w
  /\ requests (world_left r) = requests w.
Proof.
  intros Hkey Hbad Hfour. cbv zeta.
  unfold App.main, App.__init__. rewrite Hkey. cbn [negb].
  match goal with
  | |- context [App.main_loop _ _ (S ?n) (Program _ ?b ?x ?k)] =>
      destruct (@main_loop_quits upper_ext oracle n bad four rest b x k Hbad Hfour)
        as [said ->]
  end.
  cbn. repeat split.
Qed.

Lemma main_quits_on_four_witness :
  keyboard_left (App.main (fun c => [c]) (fun _ => openai_env_ok) (Some (lit "sk"))
                   [lit "9"; lit "quit"; lit " 4"; lit "1"] (openai_world Missing))
  = [lit "1"].
Proof.
  refine (proj1 (proj2 (@main_quits_on_four (fun c => [c]) (fun _ => openai_env_ok)
                          (Some (lit "sk")) [lit "9"; lit "quit"] (lit " 4") [lit "1"]
                          (openai_world Missing) eq_refl _ eq_refl))).
  repeat constructor.
Defined.

(** X20.  A question that is empty after stripping costs no call: the
    loop of [main] prints its refusal, waits for Enter, and is back at
    the menu with the same chatbot object, the same history file, the
    same requests and the same count of operations. *)
Theorem empty_question_is_refused (upper_ext : N -> str)
    (oracle : nat -> env OpenAI.request OpenAI.response)
    (fuel : nat) (bad : list str) (one question enter : str) (rest : list str)
    (b : AIChatbot) (w : world OpenAI.request) (k : nat) :
  Forall rejected bad ->
  strip one = lit "1" ->
  strip question = [] ->
  exists said,
    App.main_loop upper_ext oracle (S fuel)
      (Program (bad ++ one :: question :: enter :: rest) b w k)
    = App.main_loop upper_ext oracle fuel (Program rest b (say said w) k)
    /\ In (cross_mark ++ lit " Question cannot be empty!") said.
Proof.
  intros Hbad Hone Hq. enter_menu Hbad Hone.
  change (str_eqb (lit "1") (lit "1")) with true.
  change (existsb (str_eqb (lit "1")) [lit "1"; lit "2"; lit "3"]) with true.
  cbn beta iota.
  app_step. app_step. unfold App.echo at 1.
  cbn [keyboard outside stdout chatbot served]. cbn beta iota.
  app_step. unfold App.input_ at 1.
  cbn [keyboard outside stdout chatbot served]. cbn beta iota.
  rewrite Hq. cbn [truthy]. cbn beta iota.
  app_step. unfold App.echo at 1.
  cbn [keyboard outside stdout chatbot served]. cbn beta iota.
  unfold App.done at 1. cbn beta iota.
  app_step. app_step. unfold App.input_ at 1.
  cbn [keyboard outside stdout chatbot served]. cbn beta iota.
  unfold App.done at 1. cbn beta iota.
  unfold display_menu, say. cbn [history_file stdout requests].
  rewrite <- !app_assoc.
  eexists. split; [reflexivity | ].
  rewrite !in_app_iff. cbn [In]. tauto.
Qed.

Lemma empty_question_is_refused_witness :
  exists said,
    App.main_loop (fun c => [c]) (fun _ => openai_env_ok) 3
      (Program [lit "1"; lit "   "; lit ""; lit "4"] OpenAI.init
         (openai_world Missing) 0)
    = App.main_loop (fun c => [c]) (fun _ => openai_env_ok) 2
        (Program [lit "4"] OpenAI.init (say said (openai_world Missing)) 0).
Proof.
  destruct (@empty_question_is_refused (fun c => [c]) (fun _ => openai_env_ok) 2
              [] (lit "1") (lit "   ") (lit "") [lit "4"] OpenAI.init
              (openai_world Missing) 0 (Forall_nil _) eq_refl eq_refl)
    as (said & Heq & _).
  exists said. exact Heq.
Defined.

(** X21.  In the summarization mode a line that spells CANCEL, in any
    mix of upper and lower case, costs no call either: the loop of [main]
    prints that the input was cancelled, waits for Enter, and is back at
    the menu with the same object, file, requests and count. *)
Theorem cancelled_text_returns_to_menu (upper_ext : N -> str)
    (oracle : nat -> env OpenAI.request OpenAI.response)
    (fuel : nat) (bad : list str) (two word enter : str) (rest : list str)
    (b : AIChatbot) (w : world OpenAI.request) (k : nat) :
  Forall rejected bad ->
  strip two = lit "2" ->
  In word (case_variants (lit "CANCEL")) ->
  exists said,
    App.main_loop upper_ext oracle (S fuel)
      (Program (bad ++ two :: word :: enter :: rest) b w k)
    = App.main_loop upper_ext oracle fuel (Program rest b (say said w) k)
    /\ In (cross_mark ++ lit " Cancelled.") said.
Proof.
  intros Hbad Htwo Hword. enter_menu Hbad Htwo.
  change (str_eqb (lit "2") (lit "1")) with false.
  change (str_eqb (lit "2") (lit "2")) with true.
  change (existsb (str_eqb (lit "2")) [lit "1"; lit "2"; lit "3"]) with true.
  cbn beta iota.
  app_step. app_step. unfold App.echo at 1.
  cbn [keyboard outside stdout chatbot served]. cbn beta iota.
  app_step. unfold App.on_console at 1.
  cbn [keyboard outside stdout chatbot served].
  unfold get_multiline_input at 1. cbn [stdin printed read_lines].
  pose proof (cancel_variants_recognised upper_ext) as Hall.
  rewrite Forall_forall in Hall. rewrite (Hall word Hword).
  cbn beta iota. cbn [stdin printed truthy].
  app_step. unfold App.echo at 1.
  cbn [keyboard outside stdout chatbot served]. cbn beta iota.
  unfold App.done at 1. cbn beta iota.
  app_step. app_step. unfold App.input_ at 1.
  cbn [keyboard outside stdout chatbot served]. cbn beta iota.
  unfold App.done at 1. cbn beta iota.
  unfold display_menu, say. cbn [history_file stdout requests].
  rewrite <- !app_assoc.
  eexists. split; [reflexivity | ].
  rewrite !in_app_iff. cbn [In]. tauto.
Qed.

Lemma cancelled_text_returns_to_menu_witness :
  exists said,
    App.main_loop (fun c => [c]) (fun _ => openai_env_ok) 3
      (Program [lit " 2"; lit "Cancel"; lit ""; lit "4"] OpenAI.init
         (openai_world Missing) 0)
    = App.main_loop (fun c => [c]) (fun _ => openai_env_ok) 2
        (Program [lit "4"] OpenAI.init (say said (openai_world Missing)) 0).
Proof.
  destruct (@cancelled_text_returns_to_menu (fun c => [c]) (fun _ => openai_env_ok) 2
              [] (lit " 2") (lit "Cancel") (lit "") [lit "4"] OpenAI.init
              (openai_world Missing) 0 (Forall_nil _) eq_refl)
    as (said & Heq & _).
  - vm_compute. tauto.
  - exists said. exact Heq.
Defined.

(** X22.  In the summarization mode two blank lines at once give the
    empty text, which [main] refuses without a call: it prints that the
    text cannot be empty, not that the input was cancelled, waits for
    Enter, and is back at the menu with the same object, file, requests
    and count. *)
Theorem blank_text_is_refused (upper_ext : N -> str)
    (oracle : nat -> env OpenAI.request OpenAI.response)
    (fuel : nat) (bad : list str) (two enter : str) (rest : list str)
    (b : AIChatbot) (w : world OpenAI.request) (k : nat) :
  Forall rejected bad ->
  strip two = lit "2" ->
  exists said,
    App.main_loop upper_ext oracle (S fuel)
      (Program (bad ++ two :: lit "" :: lit "" :: enter :: rest) b w k)
    = App.main_loop upper_ext oracle fuel (Program rest b (say said w) k)
    /\ In (cross_mark ++ lit " Text cannot be empty!") said
    /\ ~ In (cross_mark ++ lit " Cancelled.") said.
Proof.
  intros Hbad Htwo. enter_menu Hbad Htwo.
  change (str_eqb (lit "2") (lit "1")) with false.
  change (str_eqb (lit "2") (lit "2")) with true.
  change (existsb (str_eqb (lit "2")) [lit "1"; lit "2"; lit "3"]) with true.
  cbn beta iota.
  app_step. app_step. unfold App.echo at 1.
  cbn [keyboard outside stdout chatbot served]. cbn beta iota.
  app_step. unfold App.on_console at 1.
  cbn [keyboard outside stdout chatbot served].
  unfold get_multiline_input at 1. cbn [stdin printed].
  replace (read_lines upper_ext (lit "" :: lit "" :: enter :: rest) [] 0)
    with (@Ret (option str) (Some (@nil N)), enter :: rest) by reflexivity.
  cbn beta iota. cbn [stdin printed truthy].
  app_step. unfold App.echo at 1.
  cbn [keyboard outside stdout chatbot served]. cbn beta iota.
  unfold App.done at 1. cbn beta iota.
  app_step. app_step. unfold App.input_ at 1.
  cbn [keyboard outside stdout chatbot served]. cbn beta iota.
  unfold App.done at 1. cbn beta iota.
  unfold display_menu, say. cbn [history_file stdout requests].
  rewrite <- !app_assoc.
  eexists. split; [reflexivity | ]. split.
  - rewrite !in_app_iff. cbn [In]. tauto.
  - intros H.
    repeat match goal with
           | H : _ \/ _ |- _ => destruct H as [H | H]
           | H : In _ (reprompts _) |- _ =>
               unfold reprompts in H; apply in_flat_map in H;
               destruct H as (? & _ & H); cbn [In] in H
           | H : In _ (_ ++ _) |- _ => apply in_app_iff in H
           | H : In _ (_ :: _) |- _ => cbn [In] in H
           | H : In _ [] |- _ => destruct H
           | H : False |- _ => destruct H
           | H : _ = _ :> str |- _ => vm_compute in H; discriminate
           end.
Qed.

Lemma blank_text_is_refused_witness :
  exists said,
    App.main_loop (fun c => [c]) (fun _ => openai_env_ok) 3
      (Program [lit "2"; lit ""; lit ""; lit ""; lit "4"] OpenAI.init
         (openai_world Missing) 0)
    = App.main_loop (fun c => [c]) (fun _ => openai_env_ok) 2
        (Program [lit "4"] OpenAI.init (say said (openai_world Missing)) 0).
Proof.
  destruct (@blank_text_is_refused (fun c => [c]) (fun _ => openai_env_ok) 2
              [] (lit "2") (lit "") [lit "4"] OpenAI.init
              (openai_world Missing) 0 (Forall_nil _) eq_refl)
    as (said & Heq & _).
  exists said. exact Heq.
Defined.

(** ** Sessions with failed operations in between *)

Section SessionUsable.
Context {request response : Type}.
Variable api : str.
Variable perform : operation -> M request response (option str).
Variable build : operation -> request.
Variable extract : outcome response -> outcome str.
Hypothesis perform_eq : forall op E self w,
  perform op E (self, w)
  = settle api (message_of op) (extract (provider E (build op))) E
      (Bot (conversation_history self) (Some (mode_of op)),
       World (history_file w) (stdout w ++ [banner op]) (requests w ++ [build op])).

Lemma session_matches_successes script :
  forall self w rs self' w',
    run_session perform script (self, w) = (rs, (self', w')) ->
    is_array (loaded (history_file w)) = true ->
    writes_succeed script ->
    conversation_history self'
    = conversation_history self ++ expected_entries script rs
    /\ List.length (expected_entries script rs) = count_successful rs
    /\ array_items (history_file w')
       = array_items (history_file w) ++ map entry_json (expected_entries script rs).
Proof.
  induction script as [ | [op E] script IH]; intros self w rs self' w' Hrun Ha Hw.
  - cbn in Hrun. inversion Hrun; subst. cbn. rewrite !app_nil_r. auto.
  - cbn in Hrun.
    destruct (perform_cases _ _ _ _ perform_eq op E self w)
      as (o & self1 & w1 & Heq & _ & _ & Hcase).
    rewrite Heq in Hrun.
    destruct (run_session perform script (self1, w1)) as [rs1 [self2 w2]] eqn:Hrest.
    inversion Hrun; subst. clear Hrun.
    inversion Hw as [ | step steps Hw0 Hw1 ]; subst. cbn in Hw0.
    destruct (is_array_items _ Ha) as [items Hitems].
    destruct (extract (provider E (build op))) as [text | e].
    + destruct Hcase as [Hh1 [[Ho Hf] | [_ [_ Hno]]]]; [ | now elim (Hno items)].
      subst o. rewrite Hw0 in Hf.
      assert (Ha1 : is_array (loaded (history_file w1)) = true)
        by (rewrite Hf; reflexivity).
      destruct (IH _ _ _ _ _ Hrest Ha1 Hw1) as (Hh & Hlen & Hdisk).
      cbn [expected_entries count_successful]. repeat split.
      * rewrite Hh, Hh1, <- app_assoc. reflexivity.
      * cbn. now rewrite Hlen.
      * rewrite Hdisk, Hf. cbn [array_items map]. now rewrite <- app_assoc.
    + destruct Hcase as (-> & Hh1 & Hf & _).
      assert (Ha1 : is_array (loaded (history_file w1)) = true)
        by (rewrite Hf; exact Ha).
      destruct (IH _ _ _ _ _ Hrest Ha1 Hw1) as (Hh & Hlen & Hdisk).
      cbn [expected_entries count_successful]. repeat split.
      * rewrite Hh, Hh1. reflexivity.
      * exact Hlen.
      * rewrite Hdisk, Hf. reflexivity.
Qed.

End SessionUsable.

(** X23.  In a session of chatbot.py on a new chatbot object, with a
    history file that is missing, unreadable or holds an array, and with
    writes that go through, the session list holds exactly one entry per
    operation that returned a text, in call order, and none for the
    operations that failed in between; the on-disk array is the array
    found at the start followed by those entries. *)
Theorem session_entries_match_successes
    (script : list (operation * env OpenAI.request OpenAI.response))
    (w : world OpenAI.request) (rs : list (outcome (option str)))
    (self' : AIChatbot) (w' : world OpenAI.request) :
  run_session openai_perform script (OpenAI.init, w) = (rs, (self', w')) ->
  is_array (loaded (history_file w)) = true ->
  writes_succeed script ->
  conversation_history self' = expected_entries script rs
  /\ List.length (conversation_history self') = count_successful rs
  /\ array_items (history_file w')
     = array_items (history_file w) ++ map entry_json (conversation_history self').
Proof.
  intros Hrun Ha Hw.
  destruct (@session_matches_successes _ _ _ _ _ _ openai_perform_eq
              script OpenAI.init w rs self' w' Hrun Ha Hw)
    as (Hh & Hlen & Hdisk).
  cbn [OpenAI.init conversation_history app] in Hh.
  rewrite Hh. auto.
Qed.

Lemma session_entries_match_successes_witness :
  let w := openai_world (Holds (JArray [JString (lit "older")])) in
  let final := run_session openai_perform ok_down_ok (OpenAI.init, w) in
  fst final = [Ret (Some (lit "Paris.")); Ret None; Ret (Some (lit "Paris, capital."))]
  /\ List.length (conversation_history (fst (snd final))) = 2%nat
  /\ array_items (history_file (snd (snd final)))
     = JString (lit "older")
       :: map entry_json (conversation_history (fst (snd final))).
Proof.
  cbv zeta.
  destruct (run_session openai_perform ok_down_ok
              (OpenAI.init, openai_world (Holds (JArray [JString (lit "older")]))))
    as [rs [self' w']] eqn:Hrun.
  assert (Hrs : rs = [Ret (Some (lit "Paris.")); Ret None;
                      Ret (Some (lit "Paris, capital."))]).
  { apply (f_equal fst) in Hrun. vm_compute in Hrun. now subst rs. }
  destruct (@session_entries_match_successes ok_down_ok _ rs self' w' Hrun eq_refl)
    as (_ & Hlen & Hdisk).
  - repeat constructor.
  - cbn [fst snd]. split; [exact Hrs | ]. split; [ | exact Hdisk].
    rewrite Hlen, Hrs. reflexivity.
Defined.
